(** * demo_sim.py: the alert lifecycle of the EO Strata demo simulator

    A shallow embedding of [DemoSimulator] (src/demo_sim.py): the event
    filter of [fetch_events], the payload builder, the ledger of sent alerts
    and the resolve flow, followed by the properties the specification states
    about them. *)

From Stdlib Require Import ZArith Lia Ascii String.

From stdpp Require Import gmap strings list fin_maps pretty.

Local Open Scope string_scope.

Local Open Scope nat_scope.

Set Warnings "-register-all".

(** ** Python values

    The simulator handles whatever [json.loads] hands it: the event feed, the
    generated alert and the ledger file are JSON documents.  A float is kept
    as the bit pattern of its IEEE-754 double; no arithmetic is done on it. *)

Inductive pyval : Type :=
  | VNone
  | VBool (b : bool)
  | VInt (n : Z)
  | VFloat (bits : Z)
  | VStr (s : string)
  | VList (items : list pyval)
  | VDict (entries : gmap string pyval).

(** A Python [dict] with string keys, as [json.loads] builds it. *)
Abbreviation pydict := (gmap string pyval).

(** Truth value of an object, as [if x:] and [not x] test it. *)
Definition truthy (v : pyval) : bool :=
  match v with
  | VNone => false
  | VBool b => b
  | VInt n => negb (n =? 0)%Z
  | VFloat bits => negb ((bits mod 2 ^ 63) =? 0)%Z
  | VStr s => negb (String.eqb s "")
  | VList items => match items with [] => false | _ => true end
  | VDict entries => negb (bool_decide (entries = ∅))
  end.

(** [d.get(key, default)]; [d.get(key)] is [dict_get d key VNone]. *)
Definition dict_get (d : pydict) (key : string) (default : pyval) : pyval :=
  from_option id default (d !! key).

(** A dict display [{k1: v1, ..., kn: vn}] with distinct keys. *)
Definition dict_literal (items : list (string * pyval)) : pydict :=
  list_to_map items.

(** [x == s] for a string literal [s]: only the string [s] itself is equal
    to it. *)
Definition eq_str (v : pyval) (s : string) : bool :=
  match v with
  | VStr s' => String.eqb s' s
  | _ => false
  end.

(** [isinstance(x, str)]. *)
Definition is_str (v : pyval) : bool :=
  match v with
  | VStr _ => true
  | _ => false
  end.

(** [s.replace("Z", "+00:00")]. *)
Fixpoint replace_Z (s : string) : string :=
  match s with
  | EmptyString => EmptyString
  | String c rest =>
      if Ascii.eqb c "Z"%char then "+00:00" ++ replace_Z rest
      else String c (replace_Z rest)
  end.

(** The exceptions that can leave the modelled code. *)
Inductive pyexn : Type :=
  | AttributeError
  | TypeError
  | KeyError
  | UnicodeDecodeError
  | PermissionError
  | NotRenderableError
  | MarkupError
  | KeyboardInterrupt.

Inductive result (A : Type) : Type :=
  | Ok (a : A)
  | Raise (e : pyexn).

Arguments Ok {A} a.

Arguments Raise {A} e.

(** What [datetime.fromisoformat] makes of a string: a [ValueError], a
    datetime without UTC offset, or one with an offset.  Datetimes are counted
    in microseconds, an aware one from the epoch in UTC. *)
Inductive parsed_datetime : Type :=
  | ParseValueError
  | NaiveDatetime (wall_us : Z)
  | AwareDatetime (utc_us : Z).

(** The parts of the Python library and of rich the simulator calls and this
    development does not define: [str()] of a float, a list or a dict; the
    parsing and printing of ISO-8601 datetimes; whether rich renders a text
    as console markup ([markup_ok]) or raises [MarkupError], as it does on a
    closing tag that closes nothing; and what [d[:n]] raises for a dict:
    [TypeError] where a slice cannot be hashed, [KeyError] from Python 3.12
    on. *)
Class PyBuiltins : Type := {
  str_of_other : pyval -> string;
  fromisoformat : string -> parsed_datetime;
  isoformat : Z -> string;
  markup_ok : string -> bool;
  dict_slice_error : pyexn
}.

(** [f"{v}"], that is [str(v)]. *)
Definition py_str `{PyBuiltins} (v : pyval) : string :=
  match v with
  | VStr s => s
  | VNone => "None"
  | VBool true => "True"
  | VBool false => "False"
  | VInt n => pretty n
  | other => str_of_other other
  end.

(** [timedelta(hours=h)], in microseconds. *)
Definition timedelta_hours (h : Z) : Z := (h * 3600 * 1000000)%Z.

(** [int(t)] for a clock reading [t] in microseconds: whole seconds,
    truncated towards zero. *)
Definition epoch_seconds (t_us : Z) : Z := (t_us ÷ 1000000)%Z.

(** ** Constants *)

Definition SENT_ALERTS_FILE : string := ".demo_sent_alerts.json".

Definition MAX_EVENT_AGE_HOURS : Z := 15.

(** ** Configuration *)

Definition placeholders : list string := ["your_"; "sk-your"; "BPUAK-your"].

(** The test of [_validate_config] on one value:
    [not value or any(value.startswith(p) for p in placeholders)]. *)
Definition is_missing (value : string) : bool :=
  negb (truthy (VStr value))
  || existsb (fun p => String.prefix p value) placeholders.

Record config : Type := {
  bp_org_token : string;
  bp_app_key : string;
  openai_api_key : string
}.

Definition _validate_config (cfg : config) : list string :=
  (fix loop (vars : list (string * string)) (missing : list string) :=
     match vars with
     | [] => missing
     | (var_name, value) :: rest =>
         if is_missing value then loop rest (missing ++ [var_name])%list
         else loop rest missing
     end)
    [("BIGPANDA_ORG_ACCESS_TOKEN", bp_org_token cfg);
     ("BIGPANDA_APP_KEY", bp_app_key cfg);
     ("OPENAI_API_KEY", openai_api_key cfg)]
    [].

(** ** Event filter

    The loop of [fetch_events] over the feed's [alerts]: active only, no
    future start times, no stale events. *)

Inductive verdict : Type :=
  | Keep
  | SkipInactive
  | SkipFuture
  | SkipStale.

(** One pass of the loop body on the event [e].  An event that is not an
    object has no [get], and a non-empty [start_time] that is not a string
    has no [replace]: both raise [AttributeError], which nothing in
    [fetch_events] catches.  The [ValueError] of an unparseable string and the
    [TypeError] of comparing a datetime without offset against [now] are
    caught, and the event is kept. *)
Definition examine `{PyBuiltins} (now cutoff : Z) (e : pyval) : result verdict :=
  match e with
  | VDict d =>
      if negb (truthy (dict_get d "is_active" (VBool false))) then Ok SkipInactive
      else
        let start_str := dict_get d "start_time" VNone in
        if truthy start_str then
          match start_str with
          | VStr s =>
              match fromisoformat (replace_Z s) with
              | AwareDatetime start_dt =>
                  if (now <? start_dt)%Z then Ok SkipFuture
                  else if (start_dt <? cutoff)%Z then Ok SkipStale
                  else Ok Keep
              | NaiveDatetime _ => Ok Keep
              | ParseValueError => Ok Keep
              end
          | _ => Raise AttributeError
          end
        else Ok Keep
  | _ => Raise AttributeError
  end.

Record filter_acc : Type := {
  active_events : list pyval;
  skipped_future : nat;
  skipped_stale : nat
}.

Fixpoint filter_loop `{PyBuiltins} (now cutoff : Z) (events : list pyval)
    (acc : filter_acc) : result filter_acc :=
  match events with
  | [] => Ok acc
  | e :: rest =>
      match examine now cutoff e with
      | Raise x => Raise x
      | Ok SkipInactive => filter_loop now cutoff rest acc
      | Ok SkipFuture =>
          filter_loop now cutoff rest
            {| active_events := active_events acc;
               skipped_future := skipped_future acc + 1;
               skipped_stale := skipped_stale acc |}
      | Ok SkipStale =>
          filter_loop now cutoff rest
            {| active_events := active_events acc;
               skipped_future := skipped_future acc;
               skipped_stale := skipped_stale acc + 1 |}
      | Ok Keep =>
          filter_loop now cutoff rest
            {| active_events := (active_events acc ++ [e])%list;
               skipped_future := skipped_future acc;
               skipped_stale := skipped_stale acc |}
      end
  end.

(** The filter for an as-of time and a maximum age in hours;
    [fetch_events] runs it with [MAX_EVENT_AGE_HOURS]. *)
Definition filter_active_events `{PyBuiltins} (now max_age_hours : Z)
    (events : list pyval) : result filter_acc :=
  let cutoff := (now - timedelta_hours max_age_hours)%Z in
  filter_loop now cutoff events
    {| active_events := []; skipped_future := 0; skipped_stale := 0 |}.

(** ** Payload assembly *)

(** [build_bigpanda_payload(generated_alert, status)], with the reading
    [time_time] of the clock (in microseconds) that [time.time()] returns. *)
Definition build_bigpanda_payload (generated_alert : pydict) (status : pyval)
    (time_time : Z) : pydict :=
  let deps := dict_get generated_alert "known_dependencies" (VList []) in
  let deps := if is_str deps then VList [deps] else deps in
  dict_literal
    [("status", status);
     ("host", dict_get generated_alert "host" (VStr "unknown-host"));
     ("check", dict_get generated_alert "check" (VStr "unknown_check"));
     ("description", dict_get generated_alert "description" (VStr "No description"));
     ("service", dict_get generated_alert "service" (VStr ""));
     ("application", dict_get generated_alert "application" (VStr ""));
     ("cluster", dict_get generated_alert "cluster" (VStr ""));
     ("instance", dict_get generated_alert "instance" (VStr ""));
     ("location", dict_get generated_alert "location" (VStr ""));
     ("environment", dict_get generated_alert "environment" (VStr "production"));
     ("cloud_region", dict_get generated_alert "cloud_region" (VStr ""));
     ("cloud_provider", dict_get generated_alert "cloud_provider" (VStr ""));
     ("cloud_account_id", dict_get generated_alert "cloud_account_id" (VStr ""));
     ("assignment_group", dict_get generated_alert "assignment_group" (VStr ""));
     ("escalation_group", dict_get generated_alert "escalation_group" (VStr ""));
     ("business_criticality", dict_get generated_alert "business_criticality" (VStr ""));
     ("known_dependencies", deps);
     ("business_owner", dict_get generated_alert "business_owner" (VStr ""));
     ("eo_correlator", VStr "true");
     ("timestamp", VInt (epoch_seconds time_time))].

(** The record [track_sent_alert(payload, event)] appends to the ledger;
    [utcnow] is the reading of [datetime.now(timezone.utc)].  [event] is
    [None] or an object. *)
Definition tracked_record `{PyBuiltins} (payload : pydict)
    (event : option pydict) (utcnow : Z) : pydict :=
  dict_literal
    [("host", dict_get payload "host" VNone);
     ("check", dict_get payload "check" VNone);
     ("description", dict_get payload "description" VNone);
     ("service", dict_get payload "service" VNone);
     ("application", dict_get payload "application" VNone);
     ("cluster", dict_get payload "cluster" VNone);
     ("instance", dict_get payload "instance" VNone);
     ("location", dict_get payload "location" VNone);
     ("environment", dict_get payload "environment" VNone);
     ("cloud_region", dict_get payload "cloud_region" VNone);
     ("cloud_provider", dict_get payload "cloud_provider" VNone);
     ("cloud_account_id", dict_get payload "cloud_account_id" VNone);
     ("assignment_group", dict_get payload "assignment_group" VNone);
     ("escalation_group", dict_get payload "escalation_group" VNone);
     ("business_criticality", dict_get payload "business_criticality" VNone);
     ("known_dependencies", dict_get payload "known_dependencies" VNone);
     ("business_owner", dict_get payload "business_owner" VNone);
     ("sent_at", VStr (isoformat utcnow));
     ("based_on_event",
      match event with
      | Some ev =>
          if truthy (VDict ev) then dict_get ev "title" (VStr "N/A")
          else VStr "N/A"
      | None => VStr "N/A"
      end);
     ("status", VStr "critical")].

(** The OK payload [resolve_alerts] builds for the ledger record [alert]. *)
Definition ok_payload `{PyBuiltins} (alert : pydict) (time_time : Z) : pydict :=
  dict_literal
    [("status", VStr "ok");
     ("host", dict_get alert "host" VNone);
     ("check", dict_get alert "check" VNone);
     ("description",
      VStr ("Resolved: " ++ py_str (dict_get alert "description" (VStr "Alert cleared"))));
     ("service", dict_get alert "service" (VStr ""));
     ("application", dict_get alert "application" (VStr ""));
     ("cluster", dict_get alert "cluster" (VStr ""));
     ("instance", dict_get alert "instance" (VStr ""));
     ("location", dict_get alert "location" (VStr ""));
     ("environment", dict_get alert "environment" (VStr ""));
     ("eo_correlator", VStr "true");
     ("timestamp", VInt (epoch_seconds time_time))].

(** ** The simulator and its surroundings *)

(** What [_load_sent_alerts] can find at [SENT_ALERTS_FILE]. *)
Inductive ledger_file : Type :=
  | FileMissing
  | FileInaccessible                    (* [exists] raises: the path cannot be examined *)
  | FileUnreadable                      (* [open] or the read raises [IOError] *)
  | FileUndecodable                     (* bytes that are no text: [UnicodeDecodeError] *)
  | FileMalformed                       (* text that is no JSON: [JSONDecodeError] *)
  | FileDocument (doc : list pydict).   (* a JSON array of objects *)

(** The requests the simulator issues. *)
Inductive request : Type :=
  | GetEvents
  | ChatCompletion (event : pydict)
  | PostAlert (payload : pydict)
  | PostConfig.

(** The outside world: the clock and the remote services.  [clock_us n] is
    the [n]-th reading of the clock, in microseconds since the epoch (UTC).
    The reply to a request is indexed by the number of requests issued before
    it: [feed_reply] is the [alerts] list of the feed, [llm_reply] the object
    the model returned, [post_status] the HTTP status of a POST; [None] is a
    failed call (a [RequestException]; for the model, any exception or an
    unparseable answer).  [post_text] is the text [send_to_bigpanda] prints
    for a POST that was not accepted: the first 500 characters of the body of
    the reply, or the message of the [RequestException]. *)
Class World : Type := {
  clock_us : nat -> Z;
  feed_reply : nat -> option (list pyval);
  llm_reply : nat -> option pydict;
  post_status : nat -> option Z;
  post_text : nat -> string
}.

(** A [DemoSimulator] object together with what it has done to its
    surroundings: the ledger file, the number of times it was written, the
    requests issued (oldest first) and the number of clock readings. *)
Record simulator : Type := {
  cfg : config;
  sent_alerts : list pydict;
  events : list pyval;
  file : ledger_file;
  file_writes : nat;
  requests : list request;
  clock_reads : nat
}.

Definition set_sent_alerts (l : list pydict) (st : simulator) : simulator :=
  {| cfg := cfg st; sent_alerts := l; events := events st; file := file st;
     file_writes := file_writes st; requests := requests st;
     clock_reads := clock_reads st |}.

Definition set_events (l : list pyval) (st : simulator) : simulator :=
  {| cfg := cfg st; sent_alerts := sent_alerts st; events := l; file := file st;
     file_writes := file_writes st; requests := requests st;
     clock_reads := clock_reads st |}.

(** State and exceptions: a method either returns a value or raises, and
    leaves a simulator behind in both cases. *)
Definition M (A : Type) : Type := simulator -> result A * simulator.

#[export] Instance M_ret : MRet M := fun A a st => (Ok a, st).

#[export] Instance M_bind : MBind M := fun A B f m st =>
  match m st with
  | (Ok a, st') => f a st'
  | (Raise e, st') => (Raise e, st')
  end.

Definition raise {A : Type} (e : pyexn) : M A := fun st => (Raise e, st).

Definition get_self : M simulator := fun st => (Ok st, st).

(** A computation without effect on the simulator, inside a method. *)
Definition lift {A : Type} (r : result A) : M A := fun st => (r, st).

(** [console.print] of a line that ends in [text], the markup before it
    closed. *)
Definition print_text `{PyBuiltins} (text : string) : M unit :=
  if markup_ok text then mret tt else raise MarkupError.

Definition modify (f : simulator -> simulator) : M unit := fun st => (Ok tt, f st).

(** The final simulator of a run. *)
Definition exec {A : Type} (m : M A) (st : simulator) : simulator := snd (m st).

(** The simulator after one more clock reading, one more request, and a
    rewrite of the ledger file. *)
Definition tick (st : simulator) : simulator :=
  {| cfg := cfg st; sent_alerts := sent_alerts st; events := events st;
     file := file st; file_writes := file_writes st; requests := requests st;
     clock_reads := S (clock_reads st) |}.

Definition add_request (r : request) (st : simulator) : simulator :=
  {| cfg := cfg st; sent_alerts := sent_alerts st; events := events st;
     file := file st; file_writes := file_writes st;
     requests := (requests st ++ [r])%list;
     clock_reads := clock_reads st |}.

Definition written (st : simulator) : simulator :=
  {| cfg := cfg st; sent_alerts := sent_alerts st; events := events st;
     file := FileDocument (sent_alerts st);
     file_writes := S (file_writes st); requests := requests st;
     clock_reads := clock_reads st |}.

(** [time.time()] and [datetime.now(timezone.utc)]: the next clock reading. *)
Definition read_clock `{World} : M Z := fun st =>
  (Ok (clock_us (clock_reads st)), tick st).

(** Issue a request; the result is its index, under which the world holds the
    reply. *)
Definition issue (r : request) : M nat := fun st =>
  (Ok (length (requests st)), add_request r st).

(** *** Sent alert tracking *)

(** [alerts_path.exists()] stands before the [try]: an error it re-raises
    leaves the method.  Inside the [try], [JSONDecodeError] and [IOError]
    are caught; [UnicodeDecodeError] is neither. *)
Definition _load_sent_alerts : M unit := fun st =>
  match file st with
  | FileMissing => (Ok tt, st)
  | FileInaccessible => (Raise PermissionError, st)
  | FileUnreadable => (Ok tt, set_sent_alerts [] st)
  | FileMalformed => (Ok tt, set_sent_alerts [] st)
  | FileUndecodable => (Raise UnicodeDecodeError, st)
  | FileDocument doc => (Ok tt, set_sent_alerts doc st)
  end.

(** The write is taken to succeed: the method has no handler for an
    [open] or a [json.dump] that fails, and a failed write is outside this
    model.  The file is kept as the list written to it; its JSON text is not
    modelled. *)
Definition _save_sent_alerts : M unit := fun st => (Ok tt, written st).

(** [DemoSimulator()]: [__init__] with the configuration [_load_config] read
    from the environment and the ledger file as found on disk. *)
Definition DemoSimulator (c : config) (f : ledger_file) : result unit * simulator :=
  _load_sent_alerts
    {| cfg := c; sent_alerts := []; events := []; file := f; file_writes := 0;
       requests := []; clock_reads := 0 |}.

(** *** Event fetching *)

Definition fetch_events `{PyBuiltins} `{World} : M (list pyval) :=
  n ← issue GetEvents;
  match feed_reply n with
  | None => mret []
  | Some evs =>
      now ← read_clock;
      match filter_active_events now MAX_EVENT_AGE_HOURS evs with
      | Raise e => raise e
      | Ok acc =>
          modify (set_events (active_events acc));;
          mret (active_events acc)
      end
  end.

(** *** Alert generation *)

(** The model's answer, [None] when the call or the parsing of its answer
    failed.  The text of the prompt is not modelled. *)
Definition generate_internal_alert `{World} (event : pydict) : M (option pydict) :=
  n ← issue (ChatCompletion event);
  mret (llm_reply n).

(** *** Delivery *)

Definition accepted (status_code : Z) : bool :=
  bool_decide (status_code ∈ [200; 201; 202]%Z).

(** The progress line shows the status of the payload, which is "critical"
    or "ok" in both callers.  When the alert is not accepted the body of the
    reply, or the message of the [RequestException], is printed as markup;
    the [MarkupError] of that print is not a [RequestException] and leaves
    the method. *)
Definition send_to_bigpanda `{PyBuiltins} `{World} (payload : pydict)
    : M bool :=
  n ← issue (PostAlert payload);
  match post_status n with
  | Some status_code =>
      if accepted status_code then mret true
      else print_text (post_text n);; mret false
  | None => print_text (post_text n);; mret false
  end.

(** *** Alert tracking *)

Definition track_sent_alert `{PyBuiltins} `{World} (payload : pydict)
    (event : option pydict) : M unit :=
  utcnow ← read_clock;
  modify (fun st =>
    set_sent_alerts (sent_alerts st ++ [tracked_record payload event utcnow])%list st);;
  _save_sent_alerts.

(** *** Console output

    The program prints through rich.  What it prints is not modelled; that a
    print can raise is, for the table of [show_sent_alerts], the lines of the
    resolve loop and what [send_to_bigpanda] prints for an alert that was not
    accepted: [truncate] and [fromisoformat] raise on values that are no
    text, [table.add_row] accepts only text for a cell, and a text printed by
    [console.print] or shown in a table is read as console markup.  The
    tables and panels of the generate-and-send flow and the messages printed
    after a failed fetch, a failed call of the model and a failed setup are
    left out; where one of them raises, the method ends there, with the
    simulator as these definitions have it at that point. *)

(** The first [n] characters of [s]. *)
Fixpoint str_take (n : nat) (s : string) : string :=
  match n, s with
  | S n', String c rest => String c (str_take n' rest)
  | _, _ => EmptyString
  end.

(** [text[:n]] for an integer [n]: the first [n] characters, or all but the
    last [-n] when [n] is negative. *)
Definition slice_to (text : string) (n : Z) : string :=
  if (0 <=? n)%Z then str_take (Z.to_nat n) text
  else str_take (String.length text - Z.to_nat (- n)) text.

(** [truncate(text, max_len, suffix)].  The callers pass whatever a record
    holds: a value that is not true gives "N/A"; a number has no [len], and a
    list or dict longer than [max_len] cannot be sliced and joined with the
    suffix, so the call raises, which is [None] here; a shorter list or dict
    is returned as it is. *)
Definition truncate (text : pyval) (max_len : Z) (suffix : string)
    : option pyval :=
  if negb (truthy text) then Some (VStr "N/A")
  else
    match text with
    | VStr s =>
        Some (VStr (if (max_len <? Z.of_nat (String.length s))%Z
                    then slice_to s (max_len - Z.of_nat (String.length suffix))
                         ++ suffix
                    else s))
    | VList items =>
        if (max_len <? Z.of_nat (length items))%Z then None else Some text
    | VDict entries =>
        if (max_len <? Z.of_nat (size entries))%Z then None else Some text
    | _ => None
    end.

(** A call [truncate(text, max_len)] in a method: what it returns, or the
    exception it raises, [TypeError] from [len] of a number and from joining
    a list with the suffix, and for a dict what slicing a dict raises. *)
Definition truncate_call `{PyBuiltins} (text : pyval) (max_len : Z)
    : result pyval :=
  match truncate text max_len "..." with
  | Some out => Ok out
  | None => Raise (match text with VDict _ => dict_slice_error | _ => TypeError end)
  end.

Definition and_then {A B : Type} (r : result A) (f : A -> result B)
    : result B :=
  match r with
  | Ok a => f a
  | Raise e => Raise e
  end.

(** [host_short = truncate(alert.get("host", "?"), 40)], the host in the
    line the loop of [resolve_alerts] prints for an alert; [None] where the
    call raises. *)
Definition host_short (alert : pydict) : option pyval :=
  truncate (dict_get alert "host" (VStr "?")) 40 "...".

(** The row of an active alert in the table of [show_sent_alerts], as far as
    [truncate] builds it: host, check, location and the event the alert is
    based on.  A [sent_at] that is no string makes [fromisoformat] raise a
    [TypeError], which is not caught (the [ValueError] of a string that is no
    timestamp is); then the four calls of [truncate] follow in order; then
    [table.add_row] takes the cells, and raises [NotRenderableError] on a
    list or a dict that [truncate] handed back as it was.  The text of the
    [sent_at] cell is not modelled. *)
Definition active_row_result `{PyBuiltins} (alert : pydict)
    : result (list pyval) :=
  if is_str (dict_get alert "sent_at" (VStr "N/A")) then
    and_then (truncate_call (dict_get alert "host" (VStr "N/A")) 36) (fun host =>
    and_then (truncate_call (dict_get alert "check" (VStr "N/A")) 20) (fun check =>
    and_then (truncate_call (dict_get alert "location"
                               (dict_get alert "cluster" (VStr "N/A"))) 18)
             (fun location =>
    and_then (truncate_call (dict_get alert "based_on_event" (VStr "N/A")) 30)
             (fun based_on =>
    if forallb is_str [host; check; location; based_on]
    then Ok [host; check; location; based_on]
    else Raise NotRenderableError))))
  else Raise TypeError.

(** The cells of the row, [None] where building the row raises. *)
Definition active_row `{PyBuiltins} (alert : pydict) : option (list pyval) :=
  match active_row_result alert with
  | Ok cells => Some cells
  | Raise _ => None
  end.

(** The rows of the table, in the order of the active alerts; the first row
    that cannot be built raises. *)
Fixpoint active_rows `{PyBuiltins} (active : list pydict)
    : result (list (list pyval)) :=
  match active with
  | [] => Ok []
  | alert :: rest =>
      and_then (active_row_result alert) (fun row =>
      and_then (active_rows rest) (fun rows => Ok (row :: rows)))
  end.

(** Whether the [sent_at] cell of an alert prints: "N/A" and a formatted
    time hold no bracket; a string that is no timestamp is shown as it is. *)
Definition sent_at_prints `{PyBuiltins} (alert : pydict) : bool :=
  match dict_get alert "sent_at" (VStr "N/A") with
  | VStr s =>
      if String.eqb s "N/A" then true
      else match fromisoformat s with
           | ParseValueError => markup_ok s
           | _ => true
           end
  | _ => true
  end.

(** [console.print(table)]: every cell of every row is read as markup. *)
Definition table_prints `{PyBuiltins} (active : list pydict)
    (rows : list (list pyval)) : bool :=
  forallb sent_at_prints active
  && forallb (forallb (fun cell => markup_ok (py_str cell))) rows.

(** *** Resolve flow *)

(** [a.get("status") != "ok"]. *)
Definition is_active (a : pydict) : bool :=
  negb (eq_str (dict_get a "status" VNone) "ok").

(** The positions in [sent_alerts], from [p] on, of the active alerts.  The
    map [{number: alert}] of [show_sent_alerts] holds references to the ledger
    records; a reference to a record is its position in the ledger, and the
    number [i] is entry [i - 1] of the list. *)
Fixpoint active_from (p : nat) (alerts : list pydict) : list nat :=
  match alerts with
  | [] => []
  | a :: rest =>
      if is_active a then p :: active_from (S p) rest
      else active_from (S p) rest
  end.

Definition show_sent_alerts `{PyBuiltins} : M (list nat) :=
  st ← get_self;
  match sent_alerts st with
  | [] => mret []
  | _ =>
      let active := List.filter is_active (sent_alerts st) in
      rows ← lift (active_rows active);
      if table_prints active rows then mret (active_from 0 (sent_alerts st))
      else raise MarkupError
  end.

(** [i in alert_map] and [alert_map[i]] for a typed number [i]. *)
Definition alert_map_get (alert_map : list nat) (i : Z) : option nat :=
  if (1 <=? i)%Z then alert_map !! Z.to_nat (i - 1) else None.

(** What the operator types at the prompt of [resolve_alerts]: one of the
    words that go back, [all], numbers separated by commas, or something
    [int()] rejects; and the answer to the confirmation. *)
Inductive selection_input : Type :=
  | SelBack
  | SelAll
  | SelNumbers (indices : list Z)
  | SelInvalid.

Record resolve_script : Type := {
  selection : selection_input;
  confirmed : bool
}.

(** [alert["status"] = "ok"] followed by
    [alert["resolved_at"] = utcnow.isoformat()]. *)
Definition mark_resolved `{PyBuiltins} (utcnow : Z) (alert : pydict) : pydict :=
  <["resolved_at" := VStr (isoformat utcnow)]> (<["status" := VStr "ok"]> alert).

(** One pass of the loop of [resolve_alerts], on the ledger record at
    position [p].  The record is changed in place; a position outside the
    ledger, which the alert map never holds, is passed over.  The host is
    shortened after the delivery and before the record is marked, and the
    line with it is printed after the record is marked. *)
Definition resolve_one `{PyBuiltins} `{World} (p : nat) : M bool :=
  st ← get_self;
  match sent_alerts st !! p with
  | None => mret false
  | Some alert =>
      time_time ← read_clock;
      success ← send_to_bigpanda (ok_payload alert time_time);
      host_short ← lift (truncate_call (dict_get alert "host" (VStr "?")) 40);
      if (success : bool) then
        utcnow ← read_clock;
        modify (fun st' =>
          set_sent_alerts (<[p := mark_resolved utcnow alert]> (sent_alerts st')) st');;
        print_text (py_str host_short);;
        mret true
      else print_text (py_str host_short);; mret false
  end.

Fixpoint resolve_loop `{PyBuiltins} `{World} (to_resolve : list nat)
    (success_count : nat) : M nat :=
  match to_resolve with
  | [] => mret success_count
  | p :: rest =>
      success ← resolve_one p;
      resolve_loop rest (if (success : bool) then success_count + 1 else success_count)
  end.

(** The alerts to resolve, or [None] where [resolve_alerts] returns at the
    prompt. *)
Definition select_to_resolve (auto_all : bool) (script : resolve_script)
    (alert_map : list nat) : option (list nat) :=
  if auto_all then Some alert_map
  else
    match selection script with
    | SelBack => None
    | SelAll => Some alert_map
    | SelNumbers indices => Some (omap (alert_map_get alert_map) indices)
    | SelInvalid => None
    end.

Definition resolve_alerts `{PyBuiltins} `{World} (auto_all : bool)
    (script : resolve_script) : M unit :=
  alert_map ← show_sent_alerts;
  match alert_map with
  | [] => mret tt
  | _ =>
      match select_to_resolve auto_all script alert_map with
      | None => mret tt
      | Some [] => mret tt
      | Some to_resolve =>
          if negb auto_all && negb (confirmed script) then mret tt
          else
            resolve_loop to_resolve 0;;
            _save_sent_alerts
      end
  end.

(** *** OIM integration setup *)

Definition setup_oim_integration (confirm : bool) : M unit :=
  if negb confirm then mret tt
  else issue PostConfig;; mret tt.

(** *** Generate and send flow *)

(** The operator's part in [generate_and_send_flow]: the event picked from
    the tables ([None] when nothing was shown or the operator went back), and
    the answers to "Send this alert", "regenerate" and the second "Send this
    alert". *)
Record flow_script : Type := {
  picked : option pydict;
  send_first : bool;
  regenerate : bool;
  send_second : bool
}.

(** The end of the flow: send, and track on success. *)
Definition send_and_track `{PyBuiltins} `{World} (payload : pydict)
    (event : pydict) : M unit :=
  success ← send_to_bigpanda payload;
  if (success : bool) then track_sent_alert payload (Some event) else mret tt.

(** [self.build_bigpanda_payload(generated)] with the clock read. *)
Definition build_now `{World} (generated : pydict) : M pydict :=
  time_time ← read_clock;
  mret (build_bigpanda_payload generated (VStr "critical") time_time).

(** The tables and panels the flow shows between the fetch and the send
    ([display_type_summary], [display_events], [show_event_detail], the
    prompt text, [preview_payload]) are console output and are reduced to
    what the operator does with them.  Where one of them raises on an event
    or an alert of an unexpected shape, the flow ends there, with the
    simulator in the state this definition reaches for the script that goes
    back at that point: before the pick with [picked = None], at a preview
    with the answer that declines the send. *)
Definition generate_and_send_flow `{PyBuiltins} `{World} (script : flow_script)
    : M unit :=
  evs ← fetch_events;
  match evs with
  | [] => mret tt
  | _ =>
      match picked script with
      | None => mret tt
      | Some event =>
          if negb (truthy (VDict event)) then mret tt
          else
            generated ← generate_internal_alert event;
            match generated with
            | None => mret tt
            | Some g =>
                if negb (truthy (VDict g)) then mret tt
                else
                  payload ← build_now g;
                  if send_first script then send_and_track payload event
                  else if regenerate script then
                    generated' ← generate_internal_alert event;
                    match generated' with
                    | None => mret tt
                    | Some g' =>
                        if negb (truthy (VDict g')) then mret tt
                        else
                          payload' ← build_now g';
                          if send_second script then send_and_track payload' event
                          else mret tt
                    end
                  else mret tt
            end
      end
  end.

(** *** Main entry point *)

Inductive menu_choice : Type :=
  | Choice1 (script : flow_script)
  | Choice2 (script : resolve_script)
  | Choice3
  | Choice4 (confirm : bool)
  | Choice5.

Definition menu_action `{PyBuiltins} `{World} (c : menu_choice) : M unit :=
  match c with
  | Choice1 script => generate_and_send_flow script
  | Choice2 script => resolve_alerts false script
  | Choice3 => show_sent_alerts;; mret tt
  | Choice4 confirm => setup_oim_integration confirm
  | Choice5 => mret tt
  end.

(** The menu loop, for the choices the operator makes; when they run out the
    operator interrupts the program. *)
Fixpoint menu_loop `{PyBuiltins} `{World} (choices : list menu_choice) : M unit :=
  match choices with
  | [] => raise KeyboardInterrupt
  | Choice5 :: _ => mret tt
  | c :: rest => menu_action c;; menu_loop rest
  end.

Definition run `{PyBuiltins} `{World} (resolve_all setup_oim : bool)
    (confirm_setup : bool) (choices : list menu_choice) : M unit :=
  st ← get_self;
  match _validate_config (cfg st) with
  | _ :: _ => mret tt
  | [] =>
      if resolve_all then
        resolve_alerts true {| selection := SelAll; confirmed := true |}
      else if setup_oim then setup_oim_integration confirm_setup
      else menu_loop choices
  end.

(** [main()]: build the simulator and run it; an interrupt ends the program
    normally. *)
Definition main `{PyBuiltins} `{World} (c : config) (f : ledger_file)
    (resolve_all setup_oim confirm_setup : bool) (choices : list menu_choice)
    : result unit * simulator :=
  match DemoSimulator c f with
  | (Raise e, sim) => (Raise e, sim)
  | (Ok _, sim) =>
      match run resolve_all setup_oim confirm_setup choices sim with
      | (Raise KeyboardInterrupt, sim') => (Ok tt, sim')
      | outcome => outcome
      end
  end.

(** ** A reference instance of the library

    The theorems below hold for every [PyBuiltins] and every [World].  For
    concrete runs, [iso_parse] and [iso_print] implement
    [datetime.fromisoformat] and [datetime.isoformat] for the fixed-width
    forms [YYYY-MM-DDTHH:MM:SS] and [YYYY-MM-DDTHH:MM:SS+HH:MM] in the
    proleptic Gregorian calendar; [iso_parse] reports every other string as a
    [ValueError], which is narrower than the library.  The sample data holds
    no float, list or dict where [str()] is applied, and [str_of_other] is
    constant. *)

Definition digit (c : ascii) : option Z :=
  let n := nat_of_ascii c in
  if (48 <=? n)%nat && (n <=? 57)%nat then Some (Z.of_nat (n - 48)) else None.

(** Exactly [n] decimal digits at the head of [s]. *)
Fixpoint digits (n : nat) (s : string) (acc : Z) : option (Z * string) :=
  match n with
  | O => Some (acc, s)
  | S n' =>
      match s with
      | String c rest =>
          match digit c with
          | Some d => digits n' rest (acc * 10 + d)%Z
          | None => None
          end
      | EmptyString => None
      end
  end.

Definition expect (c : ascii) (s : string) : option string :=
  match s with
  | String c' rest => if Ascii.eqb c c' then Some rest else None
  | EmptyString => None
  end.

Definition is_leap (y : Z) : bool :=
  ((y mod 4 =? 0) && negb (y mod 100 =? 0) || (y mod 400 =? 0))%Z.

Definition days_in_month (y m : Z) : Z :=
  if (m =? 2)%Z then (if is_leap y then 29 else 28)%Z
  else if ((m =? 4) || (m =? 6) || (m =? 9) || (m =? 11))%Z then 30%Z
  else 31%Z.

(** Days from 1970-01-01 to the civil date [y-m-d]. *)
Definition days_from_civil (y m d : Z) : Z :=
  let y' := (if m <=? 2 then y - 1 else y)%Z in
  let era := (y' / 400)%Z in
  let yoe := (y' - era * 400)%Z in
  let mp := (if 2 <? m then m - 3 else m + 9)%Z in
  let doy := ((153 * mp + 2) / 5 + d - 1)%Z in
  let doe := (yoe * 365 + yoe / 4 - yoe / 100 + doy)%Z in
  (era * 146097 + doe - 719468)%Z.

Definition iso_parse (s : string) : parsed_datetime :=
  let parsed :=
    '(y, s) ← digits 4 s 0%Z; s ← expect "-" s;
    '(m, s) ← digits 2 s 0%Z; s ← expect "-" s;
    '(d, s) ← digits 2 s 0%Z; s ← expect "T" s;
    '(hh, s) ← digits 2 s 0%Z; s ← expect ":" s;
    '(mm, s) ← digits 2 s 0%Z; s ← expect ":" s;
    '(ss, s) ← digits 2 s 0%Z;
    if ((1 <=? y) && (1 <=? m) && (m <=? 12) && (1 <=? d)
        && (d <=? days_in_month y m) && (hh <? 24) && (mm <? 60) && (ss <? 60))%Z
    then
      let wall := ((((days_from_civil y m d * 24 + hh) * 60 + mm) * 60 + ss)
                   * 1000000)%Z in
      match s with
      | EmptyString => Some (NaiveDatetime wall)
      | String sign s =>
          '(oh, s) ← digits 2 s 0%Z; s ← expect ":" s;
          '(om, s) ← digits 2 s 0%Z;
          let offset := ((oh * 60 + om) * 60 * 1000000)%Z in
          if negb (String.eqb s "") || negb (oh <? 24)%Z || negb (om <? 60)%Z
          then None
          else if Ascii.eqb sign "+" then Some (AwareDatetime (wall - offset))
          else if Ascii.eqb sign "-" then Some (AwareDatetime (wall + offset))
          else None
      end
    else None in
  from_option id ParseValueError parsed.

(** The civil date [(y, m, d)] of a day count from 1970-01-01. *)
Definition civil_from_days (z : Z) : Z * Z * Z :=
  let z := (z + 719468)%Z in
  let era := (z / 146097)%Z in
  let doe := (z - era * 146097)%Z in
  let yoe := ((doe - doe / 1460 + doe / 36524 - doe / 146096) / 365)%Z in
  let doy := (doe - (365 * yoe + yoe / 4 - yoe / 100))%Z in
  let mp := ((5 * doy + 2) / 153)%Z in
  let d := (doy - (153 * mp + 2) / 5 + 1)%Z in
  let m := (if mp <? 10 then mp + 3 else mp - 9)%Z in
  ((if m <=? 2 then yoe + era * 400 + 1 else yoe + era * 400)%Z, m, d).

(** [n] printed with at least [width] digits. *)
Definition zero_pad (width : nat) (n : Z) : string :=
  let s := pretty n in
  String.concat "" (replicate (width - String.length s) "0") ++ s.

(** [isoformat()] of an aware datetime in UTC. *)
Definition iso_print (utc_us : Z) : string :=
  let secs := (utc_us / 1000000)%Z in
  let us := (utc_us mod 1000000)%Z in
  let days := (secs / 86400)%Z in
  let sod := (secs mod 86400)%Z in
  let '(y, m, d) := civil_from_days days in
  zero_pad 4 y ++ "-" ++ zero_pad 2 m ++ "-" ++ zero_pad 2 d ++ "T"
  ++ zero_pad 2 (sod / 3600) ++ ":" ++ zero_pad 2 (sod mod 3600 / 60) ++ ":"
  ++ zero_pad 2 (sod mod 60)
  ++ (if (us =? 0)%Z then "" else "." ++ zero_pad 6 us) ++ "+00:00".

(** A text without an opening bracket, which rich prints as it is. *)
Fixpoint bracket_free (s : string) : bool :=
  match s with
  | EmptyString => true
  | String c rest => negb (Ascii.eqb c "["%char) && bracket_free rest
  end.

(** The reference instance renders the texts without an opening bracket and
    reports every other text as a [MarkupError], which is narrower than
    rich; it slices a dict as Python 3.11 does. *)
Definition sample_builtins : PyBuiltins :=
  {| str_of_other := fun _ => "<object>";
     fromisoformat := iso_parse;
     isoformat := iso_print;
     markup_ok := bracket_free;
     dict_slice_error := TypeError |}.

(** ** Field tables of the specification *)

(** The keys of the open payload. *)
Definition payload_keys : list string :=
  ["status"; "host"; "check"; "description"; "service"; "application";
   "cluster"; "instance"; "location"; "environment"; "cloud_region";
   "cloud_provider"; "cloud_account_id"; "assignment_group";
   "escalation_group"; "business_criticality"; "known_dependencies";
   "business_owner"; "eo_correlator"; "timestamp"].

(** The keys of a ledger record as [track_sent_alert] writes it. *)
Definition record_keys : list string :=
  ["host"; "check"; "description"; "service"; "application"; "cluster";
   "instance"; "location"; "environment"; "cloud_region"; "cloud_provider";
   "cloud_account_id"; "assignment_group"; "escalation_group";
   "business_criticality"; "known_dependencies"; "business_owner"; "sent_at";
   "based_on_event"; "status"].

(** The keys of the resolve payload. *)
Definition ok_payload_keys : list string :=
  ["status"; "host"; "check"; "description"; "service"; "application";
   "cluster"; "instance"; "location"; "environment"; "eo_correlator";
   "timestamp"].

(** The fields by which the platform matches a resolve to its open alert. *)
Definition identity_fields : list string :=
  ["host"; "check"; "service"; "application"; "cluster"; "instance";
   "environment"; "location"].

(** The string fields of a generated alert with their named defaults. *)
Definition string_defaults : list (string * string) :=
  [("host", "unknown-host"); ("check", "unknown_check");
   ("description", "No description"); ("service", ""); ("application", "");
   ("cluster", ""); ("instance", ""); ("location", "");
   ("environment", "production"); ("cloud_region", ""); ("cloud_provider", "");
   ("cloud_account_id", ""); ("assignment_group", ""); ("escalation_group", "");
   ("business_criticality", ""); ("business_owner", "")].

(** ** The predicates of the specification *)

(** The specification's reading of the payload builder's defaults: the named
    default replaces a field that is absent or is not a string. *)
Definition defaults_on_absent_or_wrong_shape (g : pydict) (status : pyval)
    (t : Z) : Prop :=
  ∀ field dflt, (field, dflt) ∈ string_defaults →
    (g !! field = None ∨ ∃ v, g !! field = Some v ∧ is_str v = false) →
    build_bigpanda_payload g status t !! field = Some (VStr dflt).

(** The events the loop can examine: objects whose [start_time], when the
    event is active and the field is not empty, is a string. *)
Definition event_shape_ok (e : pyval) : bool :=
  match e with
  | VDict d =>
      negb (truthy (dict_get d "is_active" (VBool false)))
      || negb (truthy (dict_get d "start_time" VNone))
      || is_str (dict_get d "start_time" VNone)
  | _ => false
  end.

(** The events the filter keeps: [is_active] is true, and the start time is
    absent or empty, or does not parse, or parses without a UTC offset, or
    lies between [now - max_age_hours] and [now]. *)
Definition keeps `{PyBuiltins} (now max_age_hours : Z) (e : pyval) : bool :=
  match e with
  | VDict d =>
      truthy (dict_get d "is_active" (VBool false))
      && match dict_get d "start_time" VNone with
         | VStr s =>
             if truthy (VStr s) then
               match fromisoformat (replace_Z s) with
               | ParseValueError => true
               | NaiveDatetime _ => true
               | AwareDatetime start_dt =>
                   ((now - timedelta_hours max_age_hours <=? start_dt)
                    && (start_dt <=? now))%Z
               end
             else true
         | _ => true
         end
  | _ => false
  end.

(** The specification's reading of the filter: a start time that parses is
    held against the window, with or without a UTC offset. *)
Definition keeps_as_specified `{PyBuiltins} (now max_age_hours : Z)
    (e : pyval) : bool :=
  match e with
  | VDict d =>
      truthy (dict_get d "is_active" (VBool false))
      && match dict_get d "start_time" VNone with
         | VStr s =>
             if truthy (VStr s) then
               match fromisoformat (replace_Z s) with
               | ParseValueError => true
               | NaiveDatetime start_dt | AwareDatetime start_dt =>
                   ((now - timedelta_hours max_age_hours <=? start_dt)
                    && (start_dt <=? now))%Z
               end
             else true
         | _ => true
         end
  | _ => false
  end.

(** ** Operations on the ledger *)

(** Whether the request with index [n] was accepted by the platform. *)
Definition delivered `{World} (n : nat) : bool :=
  match post_status n with
  | Some status_code => accepted status_code
  | None => false
  end.

Definition is_post (r : request) : bool :=
  match r with
  | PostAlert _ => true
  | _ => false
  end.

(** The operations of the simulator that read or change the ledger, with the
    operator's part in each. *)
Inductive operation : Type :=
  | OpGenerate (script : flow_script)
  | OpTrack (payload : pydict) (event : option pydict)
  | OpResolve (auto_all : bool) (script : resolve_script)
  | OpList
  | OpSetup (confirm : bool).

Definition perform `{PyBuiltins} `{World} (op : operation) : M unit :=
  match op with
  | OpGenerate script => generate_and_send_flow script
  | OpTrack payload event => track_sent_alert payload event
  | OpResolve auto_all script => resolve_alerts auto_all script
  | OpList => show_sent_alerts;; mret tt
  | OpSetup confirm => setup_oim_integration confirm
  end.

(** The simulator after a sequence of operations, each started where the one
    before it ended. *)
Definition after `{PyBuiltins} `{World} (ops : list operation)
    (st : simulator) : simulator :=
  fold_left (fun s op => exec (perform op) s) ops st.

(** The status of the ledger record at position [p]. *)
Definition status_at (p : nat) (st : simulator) : option pyval :=
  r ← sent_alerts st !! p; r !! "status".

(** A record and a later state of it with every field but [status] and
    [resolved_at] as before. *)
Definition same_snapshot (r r' : pydict) : Prop :=
  ∀ field, field ≠ "status" → field ≠ "resolved_at" → r' !! field = r !! field.

(** Between [st] and [st'] nothing was posted to the alerts endpoint and the
    ledger, in memory and on disk, stayed as it was. *)
Definition quiet (st st' : simulator) : Prop :=
  sent_alerts st' = sent_alerts st
  ∧ file st' = file st
  ∧ file_writes st' = file_writes st
  ∧ ∃ more, requests st' = (requests st ++ more)%list
            ∧ Forall (fun r => is_post r = false) more.

(** What [send_and_track] leaves behind, by the outcome of the delivery. *)
Definition sent_from `{PyBuiltins} `{World} (mid st' : simulator)
    (payload event : pydict) : Prop :=
  requests st' = (requests mid ++ [PostAlert payload])%list
  ∧ ((delivered (length (requests mid)) = false
      ∧ sent_alerts st' = sent_alerts mid
      ∧ file st' = file mid
      ∧ file_writes st' = file_writes mid)
     ∨ (delivered (length (requests mid)) = true
        ∧ sent_alerts st'
          = (sent_alerts mid
             ++ [tracked_record payload (Some event) (clock_us (clock_reads mid))])%list
        ∧ file st' = FileDocument (sent_alerts st')
        ∧ file_writes st' = S (file_writes mid))).

(** The record [r'] is the record [r] resolved between [st] and [st']: an OK
    payload built from [r] was posted and accepted, the status is "ok", and
    the other fields of the snapshot are as they were. *)
Definition resolved_by `{PyBuiltins} `{World} (st st' : simulator)
    (r r' : pydict) : Prop :=
  same_snapshot r r'
  ∧ r' !! "status" = Some (VStr "ok")
  ∧ ∃ n t, (length (requests st) ≤ n)%nat
           ∧ requests st' !! n = Some (PostAlert (ok_payload r t))
           ∧ delivered n = true.

(** One step of the simulator as the ledger sees it: requests are only
    added, and every record stays in its place, unchanged or resolved. *)
Definition op_step `{PyBuiltins} `{World} (st st' : simulator) : Prop :=
  requests st `prefix_of` requests st'
  ∧ ∀ p r, sent_alerts st !! p = Some r →
      ∃ r', sent_alerts st' !! p = Some r' ∧ (r' = r ∨ resolved_by st st' r r').

(** The simulator once the OK payload for the record [r] has been posted. *)
Definition posted_ok `{PyBuiltins} `{World} (r : pydict) (st : simulator)
    : simulator :=
  add_request (PostAlert (ok_payload r (clock_us (clock_reads st)))) (tick st).

(** What a delivery returns when its request has index [n]. *)
Definition send_result `{PyBuiltins} `{World} (n : nat) : result bool :=
  if delivered n then Ok true
  else if markup_ok (post_text n) then Ok false
       else Raise MarkupError.

(** What one pass of the resolve loop on the record [r] returns when its
    request has index [n]: the outcome of the delivery, unless the delivery,
    the shortening of the host or the print of the line raises. *)
Definition pass_result `{PyBuiltins} `{World} (r : pydict) (n : nat)
    : result bool :=
  and_then (send_result n) (fun success =>
  and_then (truncate_call (dict_get r "host" (VStr "?")) 40) (fun host =>
  if markup_ok (py_str host) then Ok success else Raise MarkupError)).

(** Whether that pass marks the record: the delivery was accepted and the
    host could be shortened. *)
Definition pass_marks `{World} (r : pydict) (n : nat) : bool :=
  delivered n && bool_decide (is_Some (host_short r)).

(** Reduce the projections of a simulator built by the setters. *)
Ltac proj_simpl :=
  cbn [fst snd cfg sent_alerts events file file_writes requests clock_reads
       set_sent_alerts set_events tick add_request written] in *.

(** ** Sample data *)

(** 2024-05-01T12:00:00Z. *)
Definition sample_now : Z := 1714564800000000.

(** A complete generated alert. *)
Definition sample_alert : pydict :=
  dict_literal
    [("host", VStr "db-prod-dal-01"); ("check", VStr "replication_lag");
     ("description", VStr "Replica lag above 120s"); ("service", VStr "orders-db");
     ("application", VStr "orders"); ("cluster", VStr "dal-a");
     ("instance", VStr "i-0a1b"); ("location", VStr "Dallas, TX");
     ("environment", VStr "production"); ("cloud_region", VStr "us-south-1");
     ("cloud_provider", VStr "aws"); ("cloud_account_id", VStr "1234");
     ("assignment_group", VStr "dba"); ("escalation_group", VStr "sre");
     ("business_criticality", VStr "tier 1");
     ("known_dependencies", VList [VStr "orders-api"; VStr "billing"]);
     ("business_owner", VStr "commerce")].

(** An active event one hour old. *)
Definition sample_event : pydict :=
  dict_literal
    [("alert_type", VStr "power_outage"); ("severity", VStr "critical");
     ("title", VStr "Dallas outage"); ("is_active", VBool true);
     ("start_time", VStr "2024-05-01T11:00:00Z")].

(** The ledger record tracked for them. *)
Definition sample_record : pydict :=
  @tracked_record sample_builtins
    (build_bigpanda_payload sample_alert (VStr "critical") 1714564800000000)
    (Some sample_event) 1714564801000000.

(** A generated alert whose [host] is a number. *)
Definition numeric_host_alert : pydict := {[ "host" := VInt 42 ]}.

(** Events that are inactive, one second ahead, sixteen hours old, with a
    start time that is no timestamp, and with one that carries no offset. *)
Definition inactive_event : pydict :=
  dict_literal
    [("title", VStr "Restored feeder"); ("is_active", VBool false);
     ("start_time", VStr "2024-05-01T11:00:00Z")].

Definition future_event : pydict :=
  dict_literal
    [("title", VStr "Planned maintenance"); ("is_active", VBool true);
     ("start_time", VStr "2024-05-01T12:00:01Z")].

Definition stale_event : pydict :=
  dict_literal
    [("title", VStr "Old storm"); ("is_active", VBool true);
     ("start_time", VStr "2024-04-30T20:00:00Z")].

Definition garbled_event : pydict :=
  dict_literal
    [("title", VStr "ISP failure"); ("is_active", VBool true);
     ("start_time", VStr "yesterday")].

Definition naive_future_event : pydict :=
  dict_literal
    [("title", VStr "Forecast"); ("is_active", VBool true);
     ("start_time", VStr "2999-01-01T00:00:00")].

Definition sample_feed : list pyval :=
  [VDict sample_event; VDict inactive_event; VDict future_event;
   VDict stale_event; VDict garbled_event; VDict naive_future_event].

(** A world in which the clock advances one second per reading, the feed and
    the model answer as above, and every request is accepted but the eighth. *)
Definition sample_world : World :=
  {| clock_us := fun n => (sample_now + Z.of_nat n * 1000000)%Z;
     feed_reply := fun _ => Some sample_feed;
     llm_reply := fun _ => Some sample_alert;
     post_status := fun n => if n =? 7 then Some 503%Z else Some 200%Z;
     post_text := fun _ => "Service Unavailable" |}.

Definition sample_config : config :=
  {| bp_org_token := "BPUAK-0123456789";
     bp_app_key := "0a1b2c3d";
     openai_api_key := "sk-proj-0123" |}.

Definition send_script : flow_script :=
  {| picked := Some sample_event; send_first := true; regenerate := false;
     send_second := false |}.

Definition resolve_all_script : resolve_script :=
  {| selection := SelAll; confirmed := true |}.

(** The simulator after two alerts were generated, sent and tracked. *)
Definition two_active : simulator :=
  @after sample_builtins sample_world
    [OpGenerate send_script; OpGenerate send_script]
    (snd (DemoSimulator sample_config FileMissing)).

(** ** More on the event filter *)

(** [e.get("is_active", False)] as a truth value, for an event that is an
    object. *)
Definition event_active (e : pyval) : bool :=
  match e with
  | VDict d => truthy (dict_get d "is_active" (VBool false))
  | _ => false
  end.

(** ** More on the flows *)

(** [active] and [resolved] of [show_sent_alerts]; the menu shows the length
    of the first and of the whole ledger. *)
Definition active_alerts (alerts : list pydict) : list pydict :=
  List.filter is_active alerts.

Definition resolved_alerts (alerts : list pydict) : list pydict :=
  List.filter (fun a => eq_str (dict_get a "status" VNone) "ok") alerts.

(** [i in type_map] and [type_map[i]], for a map [{number: value}] numbered
    from 1 and kept as the list of its values. *)
Definition numbered_get {A : Type} (numbered : list A) (i : Z) : option A :=
  if (1 <=? i)%Z then numbered !! Z.to_nat (i - 1) else None.

(** [select_alert_types(type_map)] for what the operator types: [all], or
    numbers, or something [int()] rejects (the words that go back elsewhere
    are among those here).  Without a valid number all types are shown. *)
Definition select_alert_types (type_map : list pyval) (input : selection_input)
    : list pyval :=
  match input with
  | SelAll => type_map
  | SelNumbers indices =>
      match omap (numbered_get type_map) indices with
      | [] => type_map
      | selected => selected
      end
  | SelBack | SelInvalid => type_map
  end.

(** The number of accepted requests among the [k] requests from index [n]. *)
Definition count_delivered `{World} (n k : nat) : nat :=
  length (List.filter delivered (seq n k)).

(** Whether an operation can add a record to the ledger. *)
Definition can_grow (op : operation) : bool :=
  match op with
  | OpGenerate _ | OpTrack _ _ => true
  | _ => false
  end.

(** A world like [sample_world] in which every request is accepted. *)
Definition accepting_world : World :=
  {| clock_us := fun n => (sample_now + Z.of_nat n * 1000000)%Z;
     feed_reply := fun _ => Some sample_feed;
     llm_reply := fun _ => Some sample_alert;
     post_status := fun _ => Some 200%Z;
     post_text := fun _ => "" |}.

(** A world in which the eleventh request is refused, with a body that holds
    a closing tag. *)
Definition stray_tag_world : World :=
  {| clock_us := fun n => (sample_now + Z.of_nat n * 1000000)%Z;
     feed_reply := fun _ => Some sample_feed;
     llm_reply := fun _ => Some sample_alert;
     post_status := fun n => if n =? 10 then Some 503%Z else Some 200%Z;
     post_text := fun _ => "Invalid payload, see [/docs/errors]" |}.

(** The simulator after three alerts were generated, sent and tracked. *)
Definition three_active : simulator :=
  @after sample_builtins stray_tag_world
    [OpGenerate send_script; OpGenerate send_script; OpGenerate send_script]
    (snd (DemoSimulator sample_config FileMissing)).


(** The simulator at startup with the sample configuration and no ledger
    file. *)
Definition fresh_simulator : simulator :=
  snd (DemoSimulator sample_config FileMissing).

(** The requests a run of the flow adds after [GetEvents], which has index
    [n]: none; or one call of the model for the event picked; or, the model
    having answered, a second call for it, or the post of the payload built
    from the answer; or, both calls answered, the post of the payload built
    from the second answer. *)
Definition flow_tail `{World} (script : flow_script) (n : nat)
    (more : list request) : Prop :=
  more = []
  ∨ ∃ event,
      picked script = Some event
      ∧ (more = [ChatCompletion event]
         ∨ ∃ g,
             llm_reply (S n) = Some g
             ∧ ((∃ t, more = [ChatCompletion event;
                              PostAlert (build_bigpanda_payload g
                                           (VStr "critical") t)])
                ∨ more = [ChatCompletion event; ChatCompletion event]
                ∨ ∃ g' t,
                    llm_reply (S (S n)) = Some g'
                    ∧ more = [ChatCompletion event; ChatCompletion event;
                              PostAlert (build_bigpanda_payload g'
                                           (VStr "critical") t)])).

(** ** The fields the tables show *)



(** [int], [float] and [bool] values, which have no [len]. *)
Definition is_number (v : pyval) : bool :=
  match v with
  | VBool _ | VInt _ | VFloat _ => true
  | _ => false
  end.

(** ** Properties of the payload builder *)

(** C4, as the code has it. For every generated alert, each string field of
    the open payload is the named default when the field is absent and the
    field's own value, of whatever shape, when it is present;
    [known_dependencies] is the empty list when absent, a one-element list
    when given as a string, and the list itself when given as a list. *)
Theorem defaults_applied_when_absent (g : pydict) (status : pyval) (t : Z) :
  Forall (fun fd : string * string =>
            match g !! fd.1 with
            | None => build_bigpanda_payload g status t !! fd.1 = Some (VStr fd.2)
            | Some v => build_bigpanda_payload g status t !! fd.1 = Some v
            end) string_defaults
  ∧ match g !! "known_dependencies" with
    | None =>
        build_bigpanda_payload g status t !! "known_dependencies" = Some (VList [])
    | Some (VStr s) =>
        build_bigpanda_payload g status t !! "known_dependencies"
        = Some (VList [VStr s])
    | Some (VList l) =>
        build_bigpanda_payload g status t !! "known_dependencies" = Some (VList l)
    | Some _ => True
    end.
Proof.
  split.
  - unfold string_defaults.
    repeat (apply Forall_cons; split;
            [ cbn [fst snd];
              unfold build_bigpanda_payload, dict_literal, dict_get;
              match goal with
              | |- context [g !! ?k] => destruct (g !! k); reflexivity
              end
            | ]).
    apply Forall_nil_2.
  - unfold build_bigpanda_payload, dict_literal, dict_get.
    destruct (g !! "known_dependencies") as [[]|]; try exact I; reflexivity.
Qed.

(** C4, as the specification states it, fails: a [host] given as the number
    42 is of the wrong shape and is passed through, not replaced by
    ["unknown-host"]. *)
Lemma wrong_shape_is_passed_through :
  ¬ defaults_on_absent_or_wrong_shape numeric_host_alert (VStr "critical") 0.
Proof.
  intros Hclaim.
  specialize (Hclaim "host" "unknown-host").
  assert (Hin : ("host", "unknown-host") ∈ string_defaults) by (left).
  specialize (Hclaim Hin).
  assert (Hshape : numeric_host_alert !! "host" = None
                   ∨ ∃ v, numeric_host_alert !! "host" = Some v ∧ is_str v = false).
  { right. exists (VInt 42). split; reflexivity. }
  specialize (Hclaim Hshape). vm_compute in Hclaim. discriminate Hclaim.
Qed.

(** ** Startup *)

(** [p.startswith] on the left, a decomposition of the string on the right. *)
Lemma startswith_app (p s : string) :
  String.prefix p s = true ↔ ∃ rest, s = p ++ rest.
Proof.
  revert s. induction p as [|a p IH]; intros s.
  - split; [intros _; exists s; reflexivity | intros _; by destruct s].
  - destruct s as [|b s]; simpl.
    + split; [discriminate | intros [rest Hrest]; discriminate Hrest].
    + destruct (ascii_dec a b) as [->|Hne].
      * rewrite IH. split; intros [rest Hrest]; exists rest.
        -- by rewrite Hrest.
        -- by injection Hrest.
      * split; [discriminate|]. intros [rest Hrest].
        injection Hrest as Hab _. congruence.
Qed.

(** The states of the ledger file the handler of [_load_sent_alerts]
    covers: when the file is missing, cannot be opened or read, or holds text
    that is no JSON, constructing the simulator returns normally, with an
    empty list of sent alerts and the file as it was. *)
Lemma load_is_fail_soft (c : config) :
  Forall (fun f =>
            fst (DemoSimulator c f) = Ok tt
            ∧ sent_alerts (snd (DemoSimulator c f)) = []
            ∧ file (snd (DemoSimulator c f)) = f
            ∧ file_writes (snd (DemoSimulator c f)) = 0)
    [FileMissing; FileUnreadable; FileMalformed].
Proof.
  repeat (apply Forall_cons; split; [split_and!; reflexivity|]).
  apply Forall_nil_2.
Qed.

(** C9. A credential counts as missing exactly when it is empty or starts
    with "your_", "sk-your" or "BPUAK-your"; [_validate_config] lists, in
    order, the names of the three credentials that are missing; when that
    list is not empty [run] returns at once and leaves the simulator as it
    was: no request issued, no clock read, ledger and ledger file untouched;
    and the whole program, which has read the ledger file in the constructor
    before [run] validates, then ends without a request, a clock reading or a
    write of the ledger file. *)
Theorem startup_validation `{PyBuiltins} `{World} :
  (∀ value, is_missing value = true ↔
     value = ""
     ∨ ∃ rest, value = "your_" ++ rest ∨ value = "sk-your" ++ rest
               ∨ value = "BPUAK-your" ++ rest)
  ∧ (∀ c, _validate_config c =
       ((if is_missing (bp_org_token c) then ["BIGPANDA_ORG_ACCESS_TOKEN"] else [])
        ++ (if is_missing (bp_app_key c) then ["BIGPANDA_APP_KEY"] else [])
        ++ (if is_missing (openai_api_key c) then ["OPENAI_API_KEY"] else []))%list)
  ∧ (∀ st resolve_all setup_oim confirm_setup choices,
       _validate_config (cfg st) = []
       ∨ run resolve_all setup_oim confirm_setup choices st = (Ok tt, st))
  ∧ (∀ c f resolve_all setup_oim confirm_setup choices,
       _validate_config c = []
       ∨ (requests (snd (main c f resolve_all setup_oim confirm_setup choices)) = []
          ∧ clock_reads (snd (main c f resolve_all setup_oim confirm_setup choices)) = 0
          ∧ file_writes (snd (main c f resolve_all setup_oim confirm_setup choices)) = 0
          ∧ file (snd (main c f resolve_all setup_oim confirm_setup choices)) = f)).
Proof.
  split_and!.
  - intros value. unfold is_missing, placeholders. cbn [existsb truthy].
    rewrite !orb_true_iff, negb_true_iff, negb_false_iff.
    rewrite String.eqb_eq, !startswith_app. split.
    + intros [-> | [[r ->] | [[r ->] | [[r ->] | ?]]]]; try discriminate;
        [by left | right; exists r; auto ..].
    + intros [-> | [r [-> | [-> | ->]]]]; [by left | right ..].
      * left. by exists r.
      * right; left. by exists r.
      * right; right; left. by exists r.
  - intros c. unfold _validate_config.
    destruct (is_missing (bp_org_token c)), (is_missing (bp_app_key c)),
      (is_missing (openai_api_key c)); reflexivity.
  - intros st resolve_all setup_oim confirm_setup choices.
    unfold run. unfold mbind, M_bind, get_self.
    destruct (_validate_config (cfg st)); [by left | by right].
  - intros c f resolve_all setup_oim confirm_setup choices.
    destruct (_validate_config c) as [|name missing] eqn:Hmissing; [by left|].
    right. unfold main, DemoSimulator, _load_sent_alerts, run, mbind, M_bind, get_self.
    destruct f; cbn [file set_sent_alerts cfg]; rewrite ?Hmissing; by split_and!.
Qed.

(** ** Properties of the event filter *)

Lemma examine_keeps `{PyBuiltins} (now max_age_hours : Z) (e : pyval) :
  event_shape_ok e = true →
  ∃ v, examine now (now - timedelta_hours max_age_hours) e = Ok v
       ∧ (keeps now max_age_hours e = true ↔ v = Keep).
Proof.
  unfold event_shape_ok, examine, keeps.
  destruct e as [| | | | |?|d]; try discriminate. intros Hshape.
  destruct (truthy (dict_get d "is_active" (VBool false)));
    cbn [negb andb orb] in *.
  2:{ eexists; split; [reflexivity|]. split; discriminate. }
  generalize dependent (dict_get d "start_time" VNone). intros start_str Hshape.
  destruct (truthy start_str) eqn:Htruthy; cbn [negb andb orb] in Hshape.
  2:{ eexists; split; [reflexivity|].
      destruct start_str; try (split; reflexivity). by rewrite Htruthy. }
  destruct start_str as [|b|n|bits|s|items|entries]; try discriminate.
  rewrite Htruthy. clear Hshape.
  destruct (fromisoformat (replace_Z s)) as [| |start_dt].
  1-2: eexists; (split; [reflexivity|]); split; reflexivity.
  destruct (Z.ltb_spec now start_dt) as [Hfuture|Hfuture].
  { eexists; split; [reflexivity|]. split; [|discriminate].
    rewrite andb_true_iff, !Z.leb_le. lia. }
  destruct (Z.ltb_spec start_dt (now - timedelta_hours max_age_hours)) as [Hstale|Hstale].
  { eexists; split; [reflexivity|]. split; [|discriminate].
    rewrite andb_true_iff, !Z.leb_le. lia. }
  eexists; split; [reflexivity|]. split; [reflexivity|]. intros _.
  rewrite andb_true_iff, !Z.leb_le. lia.
Qed.

Lemma filter_loop_keeps `{PyBuiltins} (now max_age_hours : Z)
    (events : list pyval) (acc : filter_acc) :
  Forall (fun e => event_shape_ok e = true) events →
  ∃ acc', filter_loop now (now - timedelta_hours max_age_hours) events acc = Ok acc'
          ∧ active_events acc'
            = (active_events acc ++ List.filter (keeps now max_age_hours) events)%list.
Proof.
  intros Hshape. revert acc.
  induction Hshape as [|e events He _ IH]; intros acc; simpl.
  - eexists; split; [reflexivity|]. by rewrite app_nil_r.
  - destruct (examine_keeps now max_age_hours e He) as (v & -> & Hv).
    destruct v.
    + rewrite (proj2 Hv eq_refl).
      edestruct IH as (acc' & -> & Hacc). eexists; split; [reflexivity|].
      rewrite Hacc. simpl. by rewrite <- app_assoc.
    + destruct (keeps now max_age_hours e); [discriminate (proj1 Hv eq_refl)|].
      apply IH.
    + destruct (keeps now max_age_hours e); [discriminate (proj1 Hv eq_refl)|].
      edestruct IH as (acc' & -> & Hacc). eexists; split; [reflexivity|].
      by rewrite Hacc.
    + destruct (keeps now max_age_hours e); [discriminate (proj1 Hv eq_refl)|].
      edestruct IH as (acc' & -> & Hacc). eexists; split; [reflexivity|].
      by rewrite Hacc.
Qed.

(** X22. What the filter keeps.  For every as-of time, maximum age and list
    of events that are objects whose start time, if not empty, is a string,
    the filter returns, in their order, exactly the events whose [is_active]
    is true and whose start time is absent or empty, or does not parse, or
    parses to a datetime without UTC offset, or parses to one with
    [now - max_age_hours <= start_time <= now]. *)
Theorem filter_keeps_exactly `{PyBuiltins} (now max_age_hours : Z)
    (events : list pyval)
    (Hshape : Forall (fun e => event_shape_ok e = true) events) :
  ∃ acc, filter_active_events now max_age_hours events = Ok acc
         ∧ active_events acc = List.filter (keeps now max_age_hours) events.
Proof.
  unfold filter_active_events.
  destruct (filter_loop_keeps now max_age_hours events
              {| active_events := []; skipped_future := 0; skipped_stale := 0 |}
              Hshape) as (acc & Hrun & Hacc).
  exists acc. split; [exact Hrun|exact Hacc].
Qed.

Lemma filter_keeps_exactly_witness :
  Forall (fun e => event_shape_ok e = true) sample_feed
  ∧ ∃ acc,
      @filter_active_events sample_builtins sample_now MAX_EVENT_AGE_HOURS sample_feed
      = Ok acc
      ∧ active_events acc
        = [VDict sample_event; VDict garbled_event; VDict naive_future_event].
Proof.
  assert (Hshape : Forall (fun e => event_shape_ok e = true) sample_feed)
    by (repeat constructor).
  split; [exact Hshape|].
  destruct (@filter_keeps_exactly sample_builtins sample_now MAX_EVENT_AGE_HOURS
              sample_feed Hshape) as (acc & Hrun & Hacc).
  exists acc. split; [exact Hrun|]. rewrite Hacc. vm_compute. reflexivity.
Defined.

(** C3. The filter at an active event whose start time is
    2999-01-01T00:00:00: the start time parses and lies after [now], so the
    claim excludes the event; the filter keeps it, since a datetime without
    UTC offset cannot be compared with [now] and the [TypeError] of the
    comparison falls into the handler written for times that do not
    parse. *)
Lemma naive_future_event_is_kept :
  @fromisoformat sample_builtins (replace_Z "2999-01-01T00:00:00")
  = NaiveDatetime 32472144000000000
  ∧ (sample_now < 32472144000000000)%Z
  ∧ @keeps_as_specified sample_builtins sample_now MAX_EVENT_AGE_HOURS
      (VDict naive_future_event) = false
  ∧ @filter_active_events sample_builtins sample_now MAX_EVENT_AGE_HOURS
      [VDict naive_future_event]
    = Ok {| active_events := [VDict naive_future_event];
            skipped_future := 0; skipped_stale := 0 |}.
Proof.
  split_and!; vm_compute; reflexivity.
Qed.

(** ** The generate and send flow *)

Section Flow.

Context `{PyBuiltins} `{World}.

Lemma quiet_refl st : quiet st st.
Proof.
  split_and!; try reflexivity. exists []. by rewrite app_nil_r.
Qed.

Lemma quiet_trans st1 st2 st3 : quiet st1 st2 → quiet st2 st3 → quiet st1 st3.
Proof.
  intros (Ha & Hf & Hw & m1 & Hr1 & Hm1) (Ha' & Hf' & Hw' & m2 & Hr2 & Hm2).
  split_and!; try congruence.
  exists (m1 ++ m2)%list. split.
  - by rewrite Hr2, Hr1, app_assoc.
  - by apply Forall_app.
Qed.

Lemma quiet_tick st : quiet st (tick st).
Proof.
  split_and!; try reflexivity. exists []. simpl. by rewrite app_nil_r.
Qed.

Lemma quiet_set_events l st : quiet st (set_events l st).
Proof.
  split_and!; try reflexivity. exists []. simpl. by rewrite app_nil_r.
Qed.

Lemma quiet_add_request r st : is_post r = false → quiet st (add_request r st).
Proof.
  intros Hr. split_and!; try reflexivity. exists [r]. split; [reflexivity|].
  by constructor.
Qed.

(** A delivery issues its request; it returns whether the alert was
    accepted, unless printing the text of a refusal raises. *)
Lemma send_to_bigpanda_run payload st :
  send_to_bigpanda payload st
  = (send_result (length (requests st)), add_request (PostAlert payload) st).
Proof.
  unfold send_to_bigpanda, send_result, delivered, print_text, issue, raise,
    mbind, M_bind.
  cbn [requests add_request].
  destruct (post_status (length (requests st))) as [status_code|].
  - destruct (accepted status_code); [done|].
    by destruct (markup_ok (post_text (length (requests st)))).
  - by destruct (markup_ok (post_text (length (requests st)))).
Qed.

Lemma track_sent_alert_run payload event st :
  track_sent_alert payload event st
  = (Ok tt,
     written (set_sent_alerts
                (sent_alerts st
                 ++ [tracked_record payload event (clock_us (clock_reads st))])%list
                (tick st))).
Proof. reflexivity. Qed.

Lemma fetch_events_quiet st : quiet st (snd (fetch_events st)).
Proof.
  unfold fetch_events, issue, read_clock, modify, raise, mbind, M_bind.
  assert (Hget : quiet st (add_request GetEvents st))
    by (by apply quiet_add_request).
  destruct (feed_reply (length (requests st))) as [evs|]; [|exact Hget].
  simpl. destruct (filter_active_events _ _ evs); exact Hget.
Qed.

Lemma generate_internal_alert_run event st :
  generate_internal_alert event st
  = (Ok (llm_reply (length (requests st))), add_request (ChatCompletion event) st).
Proof. reflexivity. Qed.

Lemma build_now_run g st :
  build_now g st
  = (Ok (build_bigpanda_payload g (VStr "critical") (clock_us (clock_reads st))),
     tick st).
Proof. reflexivity. Qed.

Lemma send_and_track_sent_from payload event mid :
  sent_from mid (snd (send_and_track payload event mid)) payload event.
Proof.
  unfold send_and_track, mbind, M_bind. rewrite send_to_bigpanda_run.
  unfold sent_from, send_result. destruct (delivered (length (requests mid))).
  - rewrite track_sent_alert_run. split; [reflexivity|]. right. by split_and!.
  - destruct (markup_ok (post_text (length (requests mid))));
      (split; [reflexivity|]); left; by split_and!.
Qed.

End Flow.

Section FlowCases.
Context `{PyBuiltins} `{World}.

(** The flow either stays quiet or ends by sending an open payload. *)
Lemma flow_cases st script :
  quiet st (exec (generate_and_send_flow script) st)
  ∨ ∃ mid g t event,
      quiet st mid
      ∧ sent_from mid (exec (generate_and_send_flow script) st)
          (build_bigpanda_payload g (VStr "critical") t) event.
Proof.
  assert (Hsend : ∀ mid g event,
            quiet st mid →
            ∃ mid' g' t' event',
              quiet st mid'
              ∧ sent_from mid'
                  (snd (send_and_track
                          (build_bigpanda_payload g (VStr "critical")
                             (clock_us (clock_reads mid)))
                          event (tick mid)))
                  (build_bigpanda_payload g' (VStr "critical") t') event').
  { intros mid g event Hmid.
    exists (tick mid), g, (clock_us (clock_reads mid)), event. split.
    - eapply quiet_trans; [exact Hmid|apply quiet_tick].
    - apply send_and_track_sent_from. }
  unfold exec, generate_and_send_flow, mbind, M_bind.
  pose proof (fetch_events_quiet st) as Hfetch.
  destruct (fetch_events st) as [[evs|e] st1]; simpl in Hfetch; [|by left].
  destruct evs as [|e0 evs]; [by left|].
  destruct (picked script) as [event|]; [|by left].
  destruct (negb (truthy (VDict event))); [by left|].
  rewrite generate_internal_alert_run.
  assert (Hchat : quiet st (add_request (ChatCompletion event) st1)).
  { eapply quiet_trans; [exact Hfetch|by apply quiet_add_request]. }
  destruct (llm_reply (length (requests st1))) as [g|]; [|by left].
  destruct (negb (truthy (VDict g))); [by left|].
  rewrite build_now_run.
  assert (Hbuilt : quiet st (tick (add_request (ChatCompletion event) st1))).
  { eapply quiet_trans; [exact Hchat|apply quiet_tick]. }
  destruct (send_first script).
  { right. exact (Hsend _ g event Hchat). }
  destruct (regenerate script); [|by left].
  rewrite generate_internal_alert_run.
  assert (Hchat' : quiet st (add_request (ChatCompletion event)
                               (tick (add_request (ChatCompletion event) st1)))).
  { eapply quiet_trans; [exact Hbuilt|by apply quiet_add_request]. }
  destruct (llm_reply _) as [g'|]; [|by left].
  destruct (negb (truthy (VDict g'))); [by left|].
  rewrite build_now_run.
  destruct (send_second script).
  { right. exact (Hsend _ g' event Hchat'). }
  left. eapply quiet_trans; [exact Hchat'|apply quiet_tick].
Qed.

(** The flow adds requests and at most one record, at the end of the ledger. *)
Lemma flow_ledger st script :
  requests st `prefix_of` requests (exec (generate_and_send_flow script) st)
  ∧ (sent_alerts (exec (generate_and_send_flow script) st) = sent_alerts st
     ∨ ∃ r, sent_alerts (exec (generate_and_send_flow script) st)
            = (sent_alerts st ++ [r])%list).
Proof.
  destruct (flow_cases st script)
    as [(Ha & _ & _ & more & Hreq & _)|(mid & g & t & event & Hq & Hreq & Hcases)].
  - split; [rewrite Hreq; by apply prefix_app_r|by left].
  - destruct Hq as (Ha & _ & _ & more & Hmid & _). split.
    + rewrite Hreq, Hmid, <- app_assoc. by apply prefix_app_r.
    + destruct Hcases as [(_ & Ha' & _)|(_ & Ha' & _)]; rewrite Ha', Ha;
        [by left|right; by eexists].
Qed.

End FlowCases.

(** C10. For every generated alert and every status argument the open payload
    has exactly the twenty fixed keys, so a key outside them is absent from
    the payload whatever the generated alert holds under it.  Every payload
    the generate-and-send flow posts has exactly these keys, and the ledger
    record tracked for an open payload has exactly the twenty keys of a ledger
    record. *)
Theorem payload_has_exactly_the_fixed_keys `{PyBuiltins} `{World}
    (g : pydict) (status : pyval) (t : Z) :
  dom (build_bigpanda_payload g status t) = list_to_set payload_keys
  ∧ (∀ key, key ∉ payload_keys → build_bigpanda_payload g status t !! key = None)
  ∧ (∀ st script n payload,
       length (requests st) ≤ n →
       requests (exec (generate_and_send_flow script) st) !! n
       = Some (PostAlert payload) →
       dom payload = list_to_set payload_keys)
  ∧ (∀ event utcnow,
       dom (tracked_record (build_bigpanda_payload g status t) event utcnow)
       = list_to_set record_keys).
Proof.
  assert (Hdom : ∀ g' status' t',
            dom (build_bigpanda_payload g' status' t') = list_to_set payload_keys).
  { intros g' status' t'. unfold build_bigpanda_payload, dict_literal.
    rewrite dom_list_to_map_L. reflexivity. }
  assert (Hquiet : ∀ st st' n payload,
            quiet st st' → length (requests st) ≤ n →
            requests st' !! n = Some (PostAlert payload) → False).
  { intros st st' n payload (_ & _ & _ & more & Hreq & Hmore) Hn Hlookup.
    rewrite Hreq, lookup_app_r in Hlookup by done.
    rewrite Forall_lookup in Hmore.
    by pose proof (Hmore _ _ Hlookup). }
  split_and!.
  - apply Hdom.
  - intros key Hkey. apply not_elem_of_dom. rewrite Hdom.
    rewrite elem_of_list_to_set. exact Hkey.
  - intros st script n payload Hn Hlookup.
    destruct (flow_cases st script)
      as [Hq|(mid & g' & t' & event & Hq & Hreq & _)].
    + destruct (Hquiet _ _ _ _ Hq Hn Hlookup).
    + rewrite Hreq in Hlookup.
      apply lookup_snoc_Some in Hlookup as [[Hlt Hmid]|[_ Hlast]].
      * destruct (Hquiet _ _ _ _ Hq Hn Hmid).
      * injection Hlast as <-. apply Hdom.
  - intros event utcnow. unfold tracked_record, dict_literal.
    rewrite dom_list_to_map_L. reflexivity.
Qed.

(** C7. A run of the generate-and-send flow ends in one of three ways.  No
    alert was posted, and the ledger, in memory and on disk, is as before.
    Or an open payload was posted as the last request and was not accepted
    (a status other than 200, 201, 202, or a failed call), and again the list
    of sent alerts, the ledger file and the number of times it was written are
    as before.  Or the payload was accepted, and exactly one record was
    appended, with status "critical" and [sent_at] set to the clock reading,
    and the file was rewritten once with the new list. *)
Theorem failed_delivery_leaves_ledger_unchanged `{PyBuiltins} `{World}
    (st : simulator) (script : flow_script) :
  quiet st (exec (generate_and_send_flow script) st)
  ∨ ∃ mid g t event,
      quiet st mid
      ∧ requests (exec (generate_and_send_flow script) st)
        = (requests mid
           ++ [PostAlert (build_bigpanda_payload g (VStr "critical") t)])%list
      ∧ ((delivered (length (requests mid)) = false
          ∧ sent_alerts (exec (generate_and_send_flow script) st) = sent_alerts st
          ∧ file (exec (generate_and_send_flow script) st) = file st
          ∧ file_writes (exec (generate_and_send_flow script) st) = file_writes st)
         ∨ (delivered (length (requests mid)) = true
            ∧ sent_alerts (exec (generate_and_send_flow script) st)
              = (sent_alerts st
                 ++ [tracked_record
                       (build_bigpanda_payload g (VStr "critical") t)
                       (Some event) (clock_us (clock_reads mid))])%list
            ∧ tracked_record (build_bigpanda_payload g (VStr "critical") t)
                (Some event) (clock_us (clock_reads mid)) !! "status"
              = Some (VStr "critical")
            ∧ tracked_record (build_bigpanda_payload g (VStr "critical") t)
                (Some event) (clock_us (clock_reads mid)) !! "sent_at"
              = Some (VStr (isoformat (clock_us (clock_reads mid))))
            ∧ file (exec (generate_and_send_flow script) st)
              = FileDocument (sent_alerts (exec (generate_and_send_flow script) st))
            ∧ file_writes (exec (generate_and_send_flow script) st)
              = S (file_writes st))).
Proof.
  destruct (flow_cases st script)
    as [Hq|(mid & g & t & event & Hq & Hreq & Hcases)]; [by left|].
  right. exists mid, g, t, event. split; [exact Hq|]. split; [exact Hreq|].
  destruct Hq as (Ha & Hf & Hw & _).
  destruct Hcases as [(Hd & Ha' & Hf' & Hw')|(Hd & Ha' & Hf' & Hw')].
  - left. split_and!; congruence.
  - right. split_and!; try done; congruence.
Qed.

(** ** The resolve loop *)

Section Resolve.

Context `{PyBuiltins} `{World}.

Lemma same_snapshot_refl r : same_snapshot r r.
Proof. by intros field _ _. Qed.

Lemma same_snapshot_trans r1 r2 r3 :
  same_snapshot r1 r2 → same_snapshot r2 r3 → same_snapshot r1 r3.
Proof.
  intros H12 H23 field Hs Hr. by rewrite (H23 field Hs Hr), (H12 field Hs Hr).
Qed.

Lemma mark_resolved_snapshot utcnow r : same_snapshot r (mark_resolved utcnow r).
Proof.
  intros field Hs Hr. unfold mark_resolved.
  by rewrite !lookup_insert_ne.
Qed.

Lemma mark_resolved_status utcnow r :
  mark_resolved utcnow r !! "status" = Some (VStr "ok").
Proof.
  unfold mark_resolved. rewrite lookup_insert_ne by done.
  by rewrite lookup_insert_eq.
Qed.

(** Each identity field of the OK payload is read from the record. *)
Lemma identity_fields_lookup :
  Forall (fun field =>
            field ≠ "status" ∧ field ≠ "resolved_at"
            ∧ ∃ d, ∀ r t, ok_payload r t !! field = Some (dict_get r field d))
    identity_fields.
Proof.
  unfold identity_fields.
  repeat (apply Forall_cons; split;
          [split_and!; [done | done | eexists; intros; reflexivity]|]).
  apply Forall_nil_2.
Qed.

Lemma same_snapshot_ok_payload r r' t :
  same_snapshot r r' →
  Forall (fun field => ok_payload r' t !! field = ok_payload r t !! field)
    identity_fields.
Proof.
  intros Hsnap. eapply Forall_impl; [apply identity_fields_lookup|].
  intros field (Hs & Hr & d & Hd). cbv beta. rewrite !Hd.
  unfold dict_get. by rewrite (Hsnap field Hs Hr).
Qed.

End Resolve.

Section ResolveLoop.

Context `{PyBuiltins} `{World}.

Lemma op_step_refl st : op_step st st.
Proof. split; [done|]. intros p r Hp. exists r. by split; [|left]. Qed.

Lemma resolved_by_later st1 st2 st3 r r' :
  requests st2 `prefix_of` requests st3 →
  resolved_by st1 st2 r r' → resolved_by st1 st3 r r'.
Proof.
  intros Hpre (Hsnap & Hstatus & n & t & Hn & Hreq & Hd).
  split_and!; [done..|]. exists n, t. split_and!; [done| |done].
  by eapply prefix_lookup_Some.
Qed.

Lemma resolved_by_earlier st1 st2 st3 r r' :
  requests st1 `prefix_of` requests st2 →
  resolved_by st2 st3 r r' → resolved_by st1 st3 r r'.
Proof.
  intros Hpre (Hsnap & Hstatus & n & t & Hn & Hreq & Hd).
  split_and!; [done..|]. exists n, t. split_and!; [|done..].
  apply prefix_length in Hpre. lia.
Qed.

Lemma op_step_trans st1 st2 st3 : op_step st1 st2 → op_step st2 st3 → op_step st1 st3.
Proof.
  intros [Hpre12 H12] [Hpre23 H23]. split; [by etrans|].
  intros p r Hp.
  destruct (H12 p r Hp) as (r2 & Hp2 & Hr2).
  destruct (H23 p r2 Hp2) as (r3 & Hp3 & Hr3).
  exists r3. split; [done|].
  destruct Hr2 as [->|Hr2], Hr3 as [->|Hr3].
  - by left.
  - right. by eapply resolved_by_earlier.
  - right. by eapply resolved_by_later.
  - right. destruct Hr2 as (Hsnap2 & _ & n & t & Hn & Hreq & Hd).
    destruct Hr3 as (Hsnap3 & Hstatus & _).
    split_and!; [by eapply same_snapshot_trans|done|].
    exists n, t. split_and!; [done| |done]. by eapply prefix_lookup_Some.
Qed.

Lemma resolve_one_missing p st :
  sent_alerts st !! p = None → resolve_one p st = (Ok false, st).
Proof.
  intros Hp. unfold resolve_one, mbind, M_bind, get_self. by rewrite Hp.
Qed.

Lemma resolve_one_run p r st :
  sent_alerts st !! p = Some r →
  resolve_one p st
  = (pass_result r (length (requests st)),
     if pass_marks r (length (requests st)) then
       set_sent_alerts
         (<[p := mark_resolved (clock_us (S (clock_reads st))) r]> (sent_alerts st))
         (tick (posted_ok r st))
     else posted_ok r st).
Proof.
  intros Hp.
  unfold resolve_one, pass_result, pass_marks, host_short, truncate_call,
    print_text, lift, raise, modify, mbind, M_bind, mret, M_ret, get_self,
    read_clock.
  rewrite Hp, send_to_bigpanda_run. cbn [requests tick clock_reads].
  unfold send_result.
  destruct (delivered (length (requests st))); cbn [and_then andb].
  - destruct (truncate (dict_get r "host" (VStr "?")) 40 "...") as [host|];
      cbn [and_then].
    + rewrite bool_decide_eq_true_2 by by eexists.
      by destruct (markup_ok (py_str host)).
    + rewrite bool_decide_eq_false_2 by by intros [? ?]. done.
  - destruct (markup_ok (post_text (length (requests st)))); cbn [and_then];
      [|done].
    destruct (truncate (dict_get r "host" (VStr "?")) 40 "...") as [host|];
      cbn [and_then]; [|done].
    by destruct (markup_ok (py_str host)).
Qed.

(** A pass that returns reports the outcome of the delivery, and has marked
    the record exactly when the alert was accepted. *)
Lemma pass_result_ok r n success :
  pass_result r n = Ok success →
  success = delivered n ∧ pass_marks r n = delivered n.
Proof.
  unfold pass_result, pass_marks, send_result, truncate_call, host_short.
  destruct (delivered n); cbn [and_then andb].
  - destruct (truncate _ _ _) as [host|]; cbn [and_then]; [|done].
    rewrite bool_decide_eq_true_2 by by eexists.
    destruct (markup_ok (py_str host)); [|done]. by intros [= <-].
  - destruct (markup_ok (post_text n)); cbn [and_then]; [|done].
    destruct (truncate _ _ _) as [host|]; cbn [and_then]; [|done].
    destruct (markup_ok (py_str host)); [|done]. by intros [= <-].
Qed.

Lemma pass_marks_delivered r n : pass_marks r n = true → delivered n = true.
Proof. unfold pass_marks. by intros [? _]%andb_true_iff. Qed.

(** One pass of the loop, whether it returns or raises: it leaves the file
    alone, keeps the length of the ledger, and is a step of the ledger. *)
Lemma resolve_one_step p st :
  file (snd (resolve_one p st)) = file st
  ∧ file_writes (snd (resolve_one p st)) = file_writes st
  ∧ length (sent_alerts (snd (resolve_one p st))) = length (sent_alerts st)
  ∧ clock_reads st ≤ clock_reads (snd (resolve_one p st))
  ∧ op_step st (snd (resolve_one p st)).
Proof.
  destruct (sent_alerts st !! p) as [r|] eqn:Hp.
  2:{ rewrite (resolve_one_missing p st Hp). simpl.
      split_and!; [done|done|done|lia|apply op_step_refl]. }
  rewrite (resolve_one_run p r st Hp).
  destruct (pass_marks r (length (requests st))) eqn:Hmarks;
    unfold posted_ok; proj_simpl.
  - apply pass_marks_delivered in Hmarks as Hd.
    split_and!; [done|done|by rewrite length_insert|lia|].
    split; [by apply prefix_app_r|].
    intros q rq Hq. proj_simpl. destruct (decide (q = p)) as [->|Hne].
    + assert (rq = r) as -> by congruence.
      exists (mark_resolved (clock_us (S (clock_reads st))) r). split.
      * apply list_lookup_insert_eq. by eapply lookup_lt_Some.
      * right. split_and!;
          [apply mark_resolved_snapshot|apply mark_resolved_status|].
        exists (length (requests st)), (clock_us (clock_reads st)).
        split_and!; [done| |done]. by apply list_lookup_middle.
    + exists rq. split; [by rewrite list_lookup_insert_ne|by left].
  - split_and!; [done|done|done|lia|].
    split; [by apply prefix_app_r|].
    intros q rq Hq. exists rq. by split; [|left].
Qed.

Lemma resolve_loop_step to_resolve success_count st :
  file (snd (resolve_loop to_resolve success_count st)) = file st
  ∧ file_writes (snd (resolve_loop to_resolve success_count st)) = file_writes st
  ∧ length (sent_alerts (snd (resolve_loop to_resolve success_count st)))
    = length (sent_alerts st)
  ∧ clock_reads st ≤ clock_reads (snd (resolve_loop to_resolve success_count st))
  ∧ op_step st (snd (resolve_loop to_resolve success_count st)).
Proof.
  revert success_count st.
  induction to_resolve as [|p rest IH]; intros success_count st.
  - simpl. split_and!; [done|done|done|lia|apply op_step_refl].
  - cbn [resolve_loop]. unfold mbind, M_bind.
    destruct (resolve_one_step p st) as (Hf & Hw & Hl & Hc & Hstep).
    destruct (resolve_one p st) as [[success|e] st1]; cbn [fst snd] in *;
      [|by split_and!].
    destruct (IH (if success then success_count + 1 else success_count) st1)
      as (Hf' & Hw' & Hl' & Hc' & Hstep').
    split_and!; [congruence..|lia|by eapply op_step_trans].
Qed.

End ResolveLoop.

Section Operations.

Context `{PyBuiltins} `{World}.

(** The listing changes nothing; it returns the positions of the active
    alerts, unless a row cannot be built or the table cannot be printed. *)
Lemma show_sent_alerts_run st :
  show_sent_alerts st
  = (match fst (show_sent_alerts st) with
     | Ok _ => Ok (active_from 0 (sent_alerts st))
     | Raise e => Raise e
     end, st).
Proof.
  unfold show_sent_alerts, lift, raise, mbind, M_bind, mret, M_ret, get_self.
  destruct (sent_alerts st) as [|a alerts]; [done|].
  destruct (active_rows _) as [rows|e]; [|done].
  by destruct (table_prints _ rows).
Qed.

Lemma select_to_resolve_nil auto_all script :
  select_to_resolve auto_all script [] = None
  ∨ select_to_resolve auto_all script [] = Some [].
Proof.
  unfold select_to_resolve. destruct auto_all; [by right|].
  destruct (selection script) as [| |indices|]; [by left|by right| |by left].
  right. f_equal. induction indices as [|i indices IH]; [done|].
  cbn [omap list_omap]. unfold alert_map_get at 1.
  by destruct (1 <=? i)%Z.
Qed.

(** [resolve_alerts] as a function of the selection: nothing happens unless
    some alert is selected and, when asked, the operator confirms; otherwise
    the loop runs and the ledger is saved once. *)
Lemma resolve_alerts_exec auto_all script st :
  exec (resolve_alerts auto_all script) st
  = match fst (show_sent_alerts st) with
    | Raise _ => st
    | Ok _ =>
        match select_to_resolve auto_all script
                (active_from 0 (sent_alerts st)) with
        | Some (p :: rest) =>
            if auto_all || confirmed script then
              match fst (resolve_loop (p :: rest) 0 st) with
              | Ok _ => written (exec (resolve_loop (p :: rest) 0) st)
              | Raise _ => exec (resolve_loop (p :: rest) 0) st
              end
            else st
        | _ => st
        end
    end.
Proof.
  unfold exec, resolve_alerts, mbind, M_bind. rewrite show_sent_alerts_run.
  destruct (fst (show_sent_alerts st)) as [m|e]; [|done].
  destruct (active_from 0 (sent_alerts st)) as [|a alert_map] eqn:Hmap.
  { by destruct (select_to_resolve_nil auto_all script) as [-> | ->]. }
  destruct (select_to_resolve auto_all script (a :: alert_map)) as [[|p rest]|];
    [done| |done].
  destruct auto_all, (confirmed script); cbn [negb andb orb]; try done.
  all: by destruct (resolve_loop (p :: rest) 0 st) as [[n|e] st1].
Qed.

(** The state a resolve leaves behind: the one it found, or the one its loop
    left, saved or not. *)
Lemma resolve_alerts_cases auto_all script st :
  exec (resolve_alerts auto_all script) st = st
  ∨ ∃ to_resolve,
      exec (resolve_alerts auto_all script) st
      = exec (resolve_loop to_resolve 0) st
      ∨ exec (resolve_alerts auto_all script) st
        = written (exec (resolve_loop to_resolve 0) st).
Proof.
  rewrite resolve_alerts_exec.
  destruct (fst (show_sent_alerts st)); [|by left].
  destruct (select_to_resolve _ _ _) as [[|p rest]|]; [by left| |by left].
  destruct (auto_all || confirmed script); [|by left].
  right. exists (p :: rest).
  destruct (fst (resolve_loop (p :: rest) 0 st)); [by right|by left].
Qed.

Lemma op_step_written st : op_step st (written st).
Proof. exact (op_step_refl st). Qed.

Lemma quiet_op_step st st' : quiet st st' → op_step st st'.
Proof.
  intros (Ha & _ & _ & more & Hreq & _). split.
  - rewrite Hreq. by apply prefix_app_r.
  - intros p r Hp. exists r. rewrite Ha. by split; [|left].
Qed.

(** Every operation is a step of the ledger. *)
Lemma perform_step op st : op_step st (exec (perform op) st).
Proof.
  destruct op as [script|payload event|auto_all script| |confirm]; cbn [perform].
  - destruct (flow_ledger st script) as [Hpre Hledger]. split; [exact Hpre|].
    intros p r Hp. exists r. split; [|by left].
    destruct Hledger as [-> |[r' ->]]; [done|].
    by apply lookup_app_l_Some.
  - unfold exec. rewrite track_sent_alert_run. split; [done|].
    intros p r Hp. exists r. split; [|by left]. proj_simpl.
    by apply lookup_app_l_Some.
  - destruct (resolve_alerts_cases auto_all script st)
      as [-> |[to_resolve [-> | ->]]]; [apply op_step_refl| |];
      by destruct (resolve_loop_step to_resolve 0 st) as (_ & _ & _ & _ & Hstep).
  - unfold exec, mbind, M_bind. rewrite show_sent_alerts_run.
    destruct (fst (show_sent_alerts st)); apply op_step_refl.
  - unfold exec, setup_oim_integration. destruct confirm; cbn [negb].
    + unfold mbind, M_bind, issue. cbn [snd]. split; [by apply prefix_app_r|].
      intros p r Hp. exists r. by split; [|left].
    + apply op_step_refl.
Qed.

Lemma after_step ops st : op_step st (after ops st).
Proof.
  revert st. induction ops as [|op ops IH]; intros st; [apply op_step_refl|].
  cbn [after fold_left]. eapply op_step_trans; [apply perform_step|apply IH].
Qed.

(** Only a resolve changes a record that is already in the ledger. *)
Lemma perform_keeps op st p r :
  (∀ auto_all script, op ≠ OpResolve auto_all script) →
  sent_alerts st !! p = Some r →
  sent_alerts (exec (perform op) st) !! p = Some r.
Proof.
  intros Hop Hp.
  destruct op as [script|payload event|auto_all script| |confirm]; cbn [perform].
  - destruct (flow_ledger st script) as [_ [-> |[r' ->]]]; [done|].
    by apply lookup_app_l_Some.
  - unfold exec. rewrite track_sent_alert_run. proj_simpl.
    by apply lookup_app_l_Some.
  - by destruct (Hop auto_all script).
  - unfold exec, mbind, M_bind. rewrite show_sent_alerts_run.
    by destruct (fst (show_sent_alerts st)).
  - unfold exec, setup_oim_integration. by destruct confirm.
Qed.

End Operations.

(** ** The ledger over time *)

Lemma tracked_identity_fields `{PyBuiltins} :
  Forall (fun field =>
            ∀ payload event utcnow t,
              ok_payload (tracked_record payload event utcnow) t !! field
              = Some (dict_get payload field VNone))
    identity_fields.
Proof.
  unfold identity_fields.
  repeat (apply Forall_cons; split; [intros; reflexivity|]).
  apply Forall_nil_2.
Qed.

(** C1. Track an alert for any payload, in any state of the simulator, and
    let any sequence of operations follow.  The record is still at its place
    in the ledger, and the resolve payload built from it, at any time, has in
    each of host, check, service, application, cluster, instance, environment
    and location the value the tracked payload had there ([None] where the
    payload had none). *)
Theorem resolve_reproduces_open_fields `{PyBuiltins} `{World}
    (st : simulator) (payload : pydict) (event : option pydict)
    (ops : list operation) (time_time : Z) :
  ∃ alert,
    sent_alerts (after ops (exec (track_sent_alert payload event) st))
      !! length (sent_alerts st) = Some alert
    ∧ Forall (fun field =>
                match payload !! field with
                | Some v => ok_payload alert time_time !! field = Some v
                | None => ok_payload alert time_time !! field = Some VNone
                end) identity_fields.
Proof.
  set (s0 := exec (track_sent_alert payload event) st).
  set (r := tracked_record payload event (clock_us (clock_reads st))).
  assert (Hr : sent_alerts s0 !! length (sent_alerts st) = Some r).
  { unfold s0, exec. rewrite track_sent_alert_run. proj_simpl.
    by apply list_lookup_middle. }
  destruct (after_step ops s0) as [_ Hstep].
  destruct (Hstep _ _ Hr) as (alert & Halert & Hrel).
  exists alert. split; [exact Halert|].
  assert (Hsnap : same_snapshot r alert).
  { destruct Hrel as [->|(Hsnap & _)]; [apply same_snapshot_refl|exact Hsnap]. }
  pose proof (same_snapshot_ok_payload r alert time_time Hsnap) as Hsame.
  pose proof tracked_identity_fields as Htracked.
  rewrite Forall_forall in Hsame, Htracked. rewrite Forall_forall.
  intros field Hfield.
  rewrite (Hsame field Hfield). unfold r.
  rewrite (Htracked field Hfield). unfold dict_get.
  by destruct (payload !! field).
Qed.

(** C5. Track an alert and let any operations follow, then any more.  The
    status of the record is "critical" right after tracking; at any later
    point it is "critical" or "ok", and once "ok" it is "ok" at every later
    point; and a single operation leaves the status as it was unless it is a
    resolve during which an OK payload built from the record was posted and
    accepted, and then the status goes from "critical" to "ok". *)
Theorem status_is_monotone `{PyBuiltins} `{World}
    (st : simulator) (payload : pydict) (event : option pydict)
    (ops ops' : list operation) (op : operation) :
  status_at (length (sent_alerts st)) (exec (track_sent_alert payload event) st)
  = Some (VStr "critical")
  ∧ ((status_at (length (sent_alerts st))
        (after ops (exec (track_sent_alert payload event) st))
      = Some (VStr "critical")
      ∧ (status_at (length (sent_alerts st))
           (after ops' (after ops (exec (track_sent_alert payload event) st)))
         = Some (VStr "critical")
         ∨ status_at (length (sent_alerts st))
             (after ops' (after ops (exec (track_sent_alert payload event) st)))
           = Some (VStr "ok")))
     ∨ (status_at (length (sent_alerts st))
          (after ops (exec (track_sent_alert payload event) st))
        = Some (VStr "ok")
        ∧ status_at (length (sent_alerts st))
            (after ops' (after ops (exec (track_sent_alert payload event) st)))
          = Some (VStr "ok")))
  ∧ (status_at (length (sent_alerts st))
       (exec (perform op) (after ops (exec (track_sent_alert payload event) st)))
     = status_at (length (sent_alerts st))
         (after ops (exec (track_sent_alert payload event) st))
     ∨ ∃ auto_all script r n t,
         op = OpResolve auto_all script
         ∧ sent_alerts (after ops (exec (track_sent_alert payload event) st))
             !! length (sent_alerts st) = Some r
         ∧ length (requests (after ops (exec (track_sent_alert payload event) st))) ≤ n
         ∧ requests (exec (perform op)
                       (after ops (exec (track_sent_alert payload event) st))) !! n
           = Some (PostAlert (ok_payload r t))
         ∧ delivered n = true
         ∧ status_at (length (sent_alerts st))
             (after ops (exec (track_sent_alert payload event) st))
           = Some (VStr "critical")
         ∧ status_at (length (sent_alerts st))
             (exec (perform op) (after ops (exec (track_sent_alert payload event) st)))
           = Some (VStr "ok")).
Proof.
  set (p := length (sent_alerts st)).
  set (s0 := exec (track_sent_alert payload event) st).
  set (r0 := tracked_record payload event (clock_us (clock_reads st))).
  assert (Hr0 : sent_alerts s0 !! p = Some r0).
  { unfold s0, exec. rewrite track_sent_alert_run. proj_simpl.
    by apply list_lookup_middle. }
  assert (Hcritical : r0 !! "status" = Some (VStr "critical")) by reflexivity.
  (* the status after a step is the status before it, or "ok" *)
  assert (Hstatus : ∀ s s' r, op_step s s' → sent_alerts s !! p = Some r →
            ∃ r', sent_alerts s' !! p = Some r'
                  ∧ (r' !! "status" = r !! "status"
                     ∨ r' !! "status" = Some (VStr "ok"))).
  { intros s s' r [_ Hstep] Hp.
    destruct (Hstep p r Hp) as (r' & Hp' & [->|(_ & Hok & _)]); eauto. }
  destruct (Hstatus s0 (after ops s0) r0 (after_step ops s0) Hr0)
    as (r1 & Hr1 & Hs1).
  destruct (Hstatus (after ops s0) (after ops' (after ops s0)) r1
              (after_step ops' (after ops s0)) Hr1) as (r2 & Hr2 & Hs2).
  assert (Hat0 : status_at p s0 = Some (VStr "critical")).
  { unfold status_at. by rewrite Hr0. }
  assert (Hat1 : status_at p (after ops s0) = r1 !! "status").
  { unfold status_at. by rewrite Hr1. }
  assert (Hat2 : status_at p (after ops' (after ops s0)) = r2 !! "status").
  { unfold status_at. by rewrite Hr2. }
  rewrite Hcritical in Hs1.
  split; [exact Hat0|]. split.
  - rewrite Hat1, Hat2. destruct Hs1 as [Hs1|Hs1]; rewrite Hs1 in Hs2 |- *.
    + left. split; [done|]. destruct Hs2 as [->| ->]; [by left|by right].
    + right. split; [done|]. by destruct Hs2 as [->| ->].
  - destruct (perform_step op (after ops s0)) as [_ Hop].
    destruct (Hop p r1 Hr1) as (r' & Hr' & Hrel).
    assert (Hat' : status_at p (exec (perform op) (after ops s0)) = r' !! "status").
    { unfold status_at. by rewrite Hr'. }
    rewrite Hat', Hat1.
    destruct Hrel as [->|(Hsnap & Hok & n & t & Hn & Hreq & Hd)]; [by left|].
    destruct Hs1 as [Hs1|Hs1]; [|left; congruence].
    destruct op as [script|payload' event'|auto_all script| |confirm].
    1,2,4,5:
      match goal with
      | |- context [perform ?o] =>
          assert (Hkeep : sent_alerts (exec (perform o) (after ops s0)) !! p = Some r1)
            by (apply perform_keeps; [intros ? ?; discriminate|exact Hr1])
      end; left; congruence.
    right. exists auto_all, script, r1, n, t. by split_and!.
Qed.

(** ** Batch resolution *)

Section Batch.

Context `{PyBuiltins} `{World}.

Lemma elem_of_active_from k l p :
  p ∈ active_from k l ↔ ∃ r, k ≤ p ∧ l !! (p - k) = Some r ∧ is_active r = true.
Proof.
  revert k. induction l as [|a l IH]; intros k; cbn [active_from].
  - split; [by intros ?%elem_of_nil|]. by intros (r & _ & ? & _).
  - assert (Hrest : p ∈ active_from (S k) l
                    ↔ ∃ r, k < p ∧ (a :: l) !! (p - k) = Some r ∧ is_active r = true).
    { rewrite IH. split; intros (r & Hle & Hr & Ha); exists r.
      - split_and!; [lia| |done].
        replace (p - k) with (S (p - S k)) by lia. done.
      - split_and!; [lia| |done].
        replace (p - k) with (S (p - S k)) in Hr by lia. done. }
    destruct (is_active a) eqn:Hactive.
    + rewrite elem_of_cons, Hrest. split.
      * intros [->|(r & Hlt & Hr & Ha)].
        -- exists a. rewrite Nat.sub_diag. by split_and!.
        -- exists r. split_and!; [lia|done..].
      * intros (r & Hle & Hr & Ha).
        destruct (decide (p = k)) as [->|Hne]; [by left|].
        right. exists r. split_and!; [lia|done..].
    + rewrite Hrest. split.
      * intros (r & Hlt & Hr & Ha). exists r. split_and!; [lia|done..].
      * intros (r & Hle & Hr & Ha). exists r. split_and!; [|done..].
        destruct (decide (p = k)) as [->|Hne]; [|lia].
        rewrite Nat.sub_diag in Hr. simpl in Hr. congruence.
Qed.

Lemma elem_of_active p l :
  p ∈ active_from 0 l ↔ ∃ r, l !! p = Some r ∧ is_active r = true.
Proof.
  rewrite elem_of_active_from. rewrite Nat.sub_0_r.
  split; [intros (r & _ & ? & ?)|intros (r & ? & ?)]; exists r;
    split_and!; (done || lia).
Qed.

Lemma NoDup_active_from k l : NoDup (active_from k l).
Proof.
  revert k. induction l as [|a l IH]; intros k; cbn [active_from].
  - constructor.
  - destruct (is_active a); [|apply IH].
    apply NoDup_cons. split; [|apply IH].
    rewrite elem_of_active_from. intros (r & Hlt & _). lia.
Qed.

Lemma select_to_resolve_subset auto_all script alert_map to_resolve p :
  select_to_resolve auto_all script alert_map = Some to_resolve →
  p ∈ to_resolve → p ∈ alert_map.
Proof.
  unfold select_to_resolve. destruct auto_all; [congruence|].
  destruct (selection script) as [| |indices|]; try congruence.
  intros [= <-]. rewrite list_elem_of_omap. intros (i & _ & Hi).
  unfold alert_map_get in Hi. destruct (1 <=? i)%Z; [|done].
  by eapply list_elem_of_lookup_2.
Qed.

(** One pass of the loop on a record that is in the ledger, whether it
    returns or raises. *)
Lemma resolve_one_batch p r st :
  sent_alerts st !! p = Some r →
  requests (snd (resolve_one p st))
  = (requests st ++ [PostAlert (ok_payload r (clock_us (clock_reads st)))])%list
  ∧ clock_reads st ≤ clock_reads (snd (resolve_one p st))
  ∧ length (sent_alerts (snd (resolve_one p st))) = length (sent_alerts st)
  ∧ (∀ q, q ≠ p → sent_alerts (snd (resolve_one p st)) !! q = sent_alerts st !! q)
  ∧ (if pass_marks r (length (requests st))
     then sent_alerts (snd (resolve_one p st)) !! p
          = Some (mark_resolved (clock_us (S (clock_reads st))) r)
          ∧ S (clock_reads st) < clock_reads (snd (resolve_one p st))
     else sent_alerts (snd (resolve_one p st)) !! p = Some r).
Proof.
  intros Hp. rewrite (resolve_one_run p r st Hp).
  destruct (pass_marks r (length (requests st))); unfold posted_ok; proj_simpl.
  - split_and!; [done|lia|by rewrite length_insert| | |lia].
    + intros q Hq. by rewrite list_lookup_insert_ne.
    + apply list_lookup_insert_eq. by eapply lookup_lt_Some.
  - split_and!; [done|lia|done|done|done].
Qed.

Lemma resolve_loop_other to_resolve success_count st p :
  p ∉ to_resolve →
  sent_alerts (snd (resolve_loop to_resolve success_count st)) !! p
  = sent_alerts st !! p.
Proof.
  revert success_count st.
  induction to_resolve as [|p0 rest IH]; intros success_count st Hp; [done|].
  apply not_elem_of_cons in Hp as [Hne Hrest].
  cbn [resolve_loop]. unfold mbind, M_bind.
  assert (Hother : sent_alerts (snd (resolve_one p0 st)) !! p
                   = sent_alerts st !! p).
  { destruct (sent_alerts st !! p0) as [r0|] eqn:Hp0.
    - destruct (resolve_one_batch p0 r0 st Hp0) as (_ & _ & _ & Hother & _).
      by apply Hother.
    - by rewrite (resolve_one_missing p0 st Hp0). }
  destruct (resolve_one p0 st) as [[success|e] st1]; cbn [fst snd] in *;
    [|done].
  by rewrite IH.
Qed.

(** A loop that returns, over distinct records of the ledger: one request
    per record, in order, and each record resolved or left alone by its own
    delivery. *)
Lemma resolve_loop_batch to_resolve success_count st count :
  NoDup to_resolve →
  (∀ p, p ∈ to_resolve → is_Some (sent_alerts st !! p)) →
  fst (resolve_loop to_resolve success_count st) = Ok count →
  length (requests (snd (resolve_loop to_resolve success_count st)))
  = length (requests st) + length to_resolve
  ∧ ∀ k p, to_resolve !! k = Some p →
      ∃ r t,
        sent_alerts st !! p = Some r
        ∧ requests (snd (resolve_loop to_resolve success_count st))
            !! (length (requests st) + k)
          = Some (PostAlert (ok_payload r t))
        ∧ ((delivered (length (requests st) + k) = true
            ∧ ∃ i, clock_reads st ≤ i
                   ∧ i < clock_reads (snd (resolve_loop to_resolve success_count st))
                   ∧ sent_alerts (snd (resolve_loop to_resolve success_count st)) !! p
                     = Some (mark_resolved (clock_us i) r))
           ∨ (delivered (length (requests st) + k) = false
              ∧ sent_alerts (snd (resolve_loop to_resolve success_count st)) !! p
                = Some r)).
Proof.
  revert success_count st.
  induction to_resolve as [|p0 rest IH];
    intros success_count st Hdistinct Hvalid Hreturns.
  { simpl. split; [lia|]. intros k p Hk. by rewrite lookup_nil in Hk. }
  apply NoDup_cons in Hdistinct as [Hp0 Hdistinct].
  destruct (Hvalid p0) as [r0 Hr0]; [by left|].
  destruct (resolve_one_batch p0 r0 st Hr0) as (Hreq & Hclock & Hlen & Hother & Hself).
  pose proof (resolve_one_run p0 r0 st Hr0) as Hrun.
  cbn [resolve_loop] in *. unfold mbind, M_bind in *.
  destruct (resolve_one p0 st) as [[success|e] st1];
    cbn [fst snd] in Hreq, Hclock, Hlen, Hother, Hself, Hreturns; [|done].
  injection Hrun as Hresult _. symmetry in Hresult.
  apply pass_result_ok in Hresult as [_ Hmarks]. rewrite Hmarks in Hself.
  set (count' := if success then success_count + 1 else success_count) in *.
  assert (Hvalid1 : ∀ p, p ∈ rest → is_Some (sent_alerts st1 !! p)).
  { intros p Hp. apply lookup_lt_is_Some. rewrite Hlen.
    apply lookup_lt_is_Some. apply Hvalid. by right. }
  destruct (IH count' st1 Hdistinct Hvalid1 Hreturns) as [IHlen IHeach].
  destruct (resolve_loop_step rest count' st1) as (_ & _ & _ & Hclock' & [Hpre _]).
  pose proof (resolve_loop_other rest count' st1 p0 Hp0) as Hkept.
  set (st' := snd (resolve_loop rest count' st1)) in *.
  assert (Hlen1 : length (requests st1) = length (requests st) + 1).
  { rewrite Hreq, length_app. simpl. lia. }
  split.
  { rewrite IHlen, Hlen1. simpl. lia. }
  intros [|k] p Hk.
  - injection Hk as <-. exists r0, (clock_us (clock_reads st)).
    rewrite Nat.add_0_r. split_and!; [done| |].
    + eapply prefix_lookup_Some; [|exact Hpre].
      rewrite Hreq. by apply list_lookup_middle.
    + destruct (delivered (length (requests st))).
      * left. split; [done|]. destruct Hself as [Hself Hlt].
        exists (S (clock_reads st)). split_and!; [lia|lia|]. by rewrite Hkept.
      * right. split; [done|]. by rewrite Hkept.
  - simpl in Hk.
    assert (Hne : p ≠ p0).
    { intros ->. apply Hp0. by eapply list_elem_of_lookup_2. }
    destruct (IHeach k p Hk) as (r & t & Hr & Hsent & Hcases).
    replace (length (requests st) + S k) with (length (requests st1) + k) by lia.
    exists r, t. split_and!; [by rewrite <- (Hother p Hne)|done|].
    destruct Hcases as [(Hd & i & Hi & Hi' & Hres)|Hcases]; [|by right].
    left. split; [done|]. exists i. split_and!; [lia|done|done].
Qed.

(** A resolve that returns after its loop: the listing and the loop
    returned, and the ledger was saved after the loop. *)
Lemma resolve_alerts_returns auto_all script st to_resolve :
  select_to_resolve auto_all script (active_from 0 (sent_alerts st))
  = Some to_resolve →
  to_resolve ≠ [] →
  auto_all || confirmed script = true →
  fst (resolve_alerts auto_all script st) = Ok tt →
  (∃ count, fst (resolve_loop to_resolve 0 st) = Ok count)
  ∧ exec (resolve_alerts auto_all script) st
    = written (exec (resolve_loop to_resolve 0) st).
Proof.
  intros Hselected Hnonempty Hconfirmed.
  unfold exec, resolve_alerts, mbind, M_bind. rewrite show_sent_alerts_run.
  destruct (fst (show_sent_alerts st)) as [m|e]; [|done].
  destruct (active_from 0 (sent_alerts st)) as [|a alert_map] eqn:Hmap.
  { destruct (select_to_resolve_nil auto_all script) as [Hnil|Hnil];
      rewrite Hnil in Hselected; [done|]. by injection Hselected as <-. }
  rewrite Hselected. destruct to_resolve as [|p rest]; [done|].
  assert (negb auto_all && negb (confirmed script) = false) as ->.
  { by destruct auto_all, (confirmed script). }
  destruct (resolve_loop (p :: rest) 0 st) as [[count|e] st1];
    cbn [fst snd]; [|done].
  intros _. split; [by exists count|done].
Qed.

End Batch.

(** ** The resolve payload *)

(** C2. For every ledger record and every clock reading, the resolve
    payload has exactly the twelve keys status, host, check, description,
    service, application, cluster, instance, location, environment,
    eo_correlator and timestamp.  Status is "ok" and the marker is "true".
    The description is "Resolved: " followed by the record's description:
    the description itself when it is a string, what [str()] makes of it
    when it is not, and "Alert cleared" when the record has none.  The
    timestamp is the whole number of seconds of the clock reading, the
    fraction cut off.  Each of host, check, service, application, cluster,
    instance, location and environment is the record's value when the record
    has the field.  For a record tracked from an open payload whose
    description is a string, the description is "Resolved: " followed by that
    string.  And the payload a pass of the resolve loop posts for the record
    is this payload at a clock reading taken in that pass. *)
Theorem ok_payload_shape `{PyBuiltins} `{World} (alert : pydict)
    (time_time : Z) :
  dom (ok_payload alert time_time) = list_to_set ok_payload_keys
  ∧ ok_payload alert time_time !! "status" = Some (VStr "ok")
  ∧ ok_payload alert time_time !! "eo_correlator" = Some (VStr "true")
  ∧ (∃ text,
       ok_payload alert time_time !! "description"
       = Some (VStr ("Resolved: " ++ text))
       ∧ match alert !! "description" with
         | None => text = "Alert cleared"
         | Some (VStr description) => text = description
         | Some VNone => text = "None"
         | Some (VBool true) => text = "True"
         | Some (VBool false) => text = "False"
         | Some (VInt n) => text = pretty n
         | Some other => text = str_of_other other
         end)
  ∧ (∃ seconds,
       ok_payload alert time_time !! "timestamp" = Some (VInt seconds)
       ∧ (0 <= time_time →
          seconds * 1000000 <= time_time < (seconds + 1) * 1000000)%Z
       ∧ (time_time <= 0 →
          (seconds - 1) * 1000000 < time_time <= seconds * 1000000)%Z)
  ∧ Forall (fun field =>
              match alert !! field with
              | Some v => ok_payload alert time_time !! field = Some v
              | None => is_Some (ok_payload alert time_time !! field)
              end) identity_fields
  ∧ (∀ payload event utcnow description,
       payload !! "description" = Some (VStr description) →
       ok_payload (tracked_record payload event utcnow) time_time
         !! "description"
       = Some (VStr ("Resolved: " ++ description)))
  ∧ (∀ p st, sent_alerts st !! p = Some alert →
       requests (snd (resolve_one p st))
       = (requests st
          ++ [PostAlert (ok_payload alert (clock_us (clock_reads st)))])%list
       ∧ clock_reads st < clock_reads (snd (resolve_one p st))).
Proof.
  split_and!.
  - unfold ok_payload, dict_literal. rewrite dom_list_to_map_L. reflexivity.
  - reflexivity.
  - reflexivity.
  - exists (py_str (dict_get alert "description" (VStr "Alert cleared"))).
    split; [reflexivity|]. unfold dict_get.
    destruct (alert !! "description") as [[| [|] | | | | |]|]; reflexivity.
  - exists (epoch_seconds time_time). split; [reflexivity|].
    unfold epoch_seconds.
    pose proof (Z.quot_rem' time_time 1000000) as Hqr.
    split; intros Hsign.
    + pose proof (Z.rem_bound_pos time_time 1000000 Hsign ltac:(lia)). lia.
    + pose proof (Z.rem_bound_pos_neg time_time 1000000 ltac:(lia) Hsign). lia.
  - unfold identity_fields.
    repeat (apply Forall_cons; split;
            [ unfold ok_payload, dict_literal, dict_get;
              match goal with
              | |- match alert !! ?k with _ => _ end =>
                  destruct (alert !! k); [reflexivity | eexists; reflexivity]
              end
            | ]).
    apply Forall_nil_2.
  - intros payload event utcnow description Hd.
    transitivity (Some (VStr ("Resolved: "
                    ++ py_str (dict_get (tracked_record payload event utcnow)
                                 "description" (VStr "Alert cleared")))));
      [reflexivity|].
    replace (dict_get (tracked_record payload event utcnow) "description"
               (VStr "Alert cleared"))
      with (dict_get payload "description" VNone) by reflexivity.
    unfold dict_get. by rewrite Hd.
  - intros p st Hp. rewrite (resolve_one_run p alert st Hp).
    destruct (pass_marks alert (length (requests st)));
      unfold posted_ok; proj_simpl; split; (done || lia).
Qed.

Lemma ok_payload_shape_witness :
  (0 <= 1714568400999999)%Z
  ∧ @ok_payload sample_builtins sample_record 1714568400999999 !! "timestamp"
    = Some (VInt 1714568400)
  ∧ @ok_payload sample_builtins sample_record 1714568400999999 !! "description"
    = Some (VStr "Resolved: Replica lag above 120s").
Proof.
  assert (Hpos : (0 <= 1714568400999999)%Z) by lia.
  split; [exact Hpos|].
  destruct (@ok_payload_shape sample_builtins sample_world sample_record
              1714568400999999)
    as (_ & _ & _ & (text & Hdescription & Htext)
        & (seconds & Htimestamp & Hbounds & _) & _ & _ & _).
  specialize (Hbounds Hpos).
  assert (seconds = 1714568400%Z) as -> by lia.
  split; [exact Htimestamp|].
  assert (Hd : sample_record !! "description"
               = Some (VStr "Replica lag above 120s")) by reflexivity.
  rewrite Hd in Htext. by subst text.
Defined.

(** X21. A resolve that returns has treated every selected record on its
    own.  Let a resolve reach its loop with the distinct ledger records
    [to_resolve] selected (and confirmed, unless all are resolved
    automatically), and let it return.  Then one OK payload was posted for
    every selected record, in order, each built from the record as it was.
    A record whose delivery was accepted has status "ok" and [resolved_at]
    set to a clock reading taken during the resolve; a record whose delivery
    was not accepted is exactly as before and is still listed as active.
    Records that were not selected are as before.  The ledger file was
    written once, after the loop, and holds the final list. *)
Theorem batch_resolution_is_independent `{PyBuiltins} `{World}
    (st : simulator) (auto_all : bool) (script : resolve_script)
    (to_resolve : list nat)
    (Hselected : select_to_resolve auto_all script (active_from 0 (sent_alerts st))
                 = Some to_resolve)
    (Hnonempty : to_resolve ≠ [])
    (Hconfirmed : auto_all || confirmed script = true)
    (Hdistinct : NoDup to_resolve)
    (Hreturns : fst (resolve_alerts auto_all script st) = Ok tt) :
  length (requests (exec (resolve_alerts auto_all script) st))
  = length (requests st) + length to_resolve
  ∧ (∀ k p, to_resolve !! k = Some p →
       ∃ r t,
         sent_alerts st !! p = Some r
         ∧ is_active r = true
         ∧ requests (exec (resolve_alerts auto_all script) st)
             !! (length (requests st) + k)
           = Some (PostAlert (ok_payload r t))
         ∧ ((delivered (length (requests st) + k) = true
             ∧ ∃ i, clock_reads st ≤ i
                    ∧ i < clock_reads (exec (resolve_alerts auto_all script) st)
                    ∧ sent_alerts (exec (resolve_alerts auto_all script) st) !! p
                      = Some (<["resolved_at" := VStr (isoformat (clock_us i))]>
                                (<["status" := VStr "ok"]> r)))
            ∨ (delivered (length (requests st) + k) = false
               ∧ sent_alerts (exec (resolve_alerts auto_all script) st) !! p = Some r
               ∧ p ∈ active_from 0
                       (sent_alerts (exec (resolve_alerts auto_all script) st)))))
  ∧ (∀ p, p ∉ to_resolve →
       sent_alerts (exec (resolve_alerts auto_all script) st) !! p
       = sent_alerts st !! p)
  ∧ file (exec (resolve_alerts auto_all script) st)
    = FileDocument (sent_alerts (exec (resolve_alerts auto_all script) st))
  ∧ file_writes (exec (resolve_alerts auto_all script) st) = S (file_writes st).
Proof.
  assert (Hactive : ∀ p, p ∈ to_resolve →
            ∃ r, sent_alerts st !! p = Some r ∧ is_active r = true).
  { intros p Hp. apply elem_of_active.
    by eapply select_to_resolve_subset. }
  assert (Hvalid : ∀ p, p ∈ to_resolve → is_Some (sent_alerts st !! p)).
  { intros p Hp. destruct (Hactive p Hp) as (r & -> & _). by eexists. }
  destruct (resolve_alerts_returns auto_all script st to_resolve Hselected
              Hnonempty Hconfirmed Hreturns) as [[count Hloop] ->].
  unfold exec.
  destruct (resolve_loop_batch to_resolve 0 st count Hdistinct Hvalid Hloop)
    as [Hlen Heach].
  destruct (resolve_loop_step to_resolve 0 st) as (_ & Hwrites & _).
  set (st1 := snd (resolve_loop to_resolve 0 st)) in *.
  proj_simpl. split_and!; [exact Hlen| | |done|by rewrite Hwrites].
  - intros k p Hk.
    destruct (Heach k p Hk) as (r & t & Hr & Hsent & Hcases).
    destruct (Hactive p) as (r' & Hr' & Hact); [by eapply list_elem_of_lookup_2|].
    assert (r' = r) as -> by congruence.
    exists r, t. split_and!; [done..|].
    destruct Hcases as [Hcase|[Hd Hsame]]; [by left|].
    right. split_and!; [done..|]. apply elem_of_active. by exists r.
  - intros p Hp. by apply resolve_loop_other.
Qed.

Lemma batch_resolution_is_independent_witness :
  select_to_resolve true resolve_all_script (active_from 0 (sent_alerts two_active))
  = Some [0; 1]
  ∧ NoDup [0; 1]
  ∧ fst (@resolve_alerts sample_builtins sample_world true resolve_all_script
           two_active) = Ok tt
  ∧ length (requests (exec (@resolve_alerts sample_builtins sample_world true
                              resolve_all_script) two_active))
    = length (requests two_active) + 2
  ∧ file_writes (exec (@resolve_alerts sample_builtins sample_world true
                         resolve_all_script) two_active)
    = S (file_writes two_active).
Proof.
  assert (Hselected :
            select_to_resolve true resolve_all_script
              (active_from 0 (sent_alerts two_active)) = Some [0; 1])
    by (vm_compute; reflexivity).
  assert (Hdistinct : NoDup [0; 1]).
  { apply NoDup_cons. split; [by intros ?%list_elem_of_singleton|].
    apply NoDup_singleton. }
  assert (Hreturns : fst (@resolve_alerts sample_builtins sample_world true
                            resolve_all_script two_active) = Ok tt)
    by (vm_compute; reflexivity).
  destruct (@batch_resolution_is_independent sample_builtins sample_world
              two_active true resolve_all_script [0; 1] Hselected
              ltac:(discriminate) eq_refl Hdistinct Hreturns)
    as (Hlen & _ & _ & _ & Hwrites).
  split_and!; [exact Hselected|exact Hdistinct|exact Hreturns|exact Hlen|
               exact Hwrites].
Defined.

(** The scenario of a partial failure: of two active records the first is
    resolved, the second, whose delivery is refused, stays active. *)
Example partial_resolve_failure :
  status_at 0 (exec (@resolve_alerts sample_builtins sample_world true
                       resolve_all_script) two_active) = Some (VStr "ok")
  ∧ status_at 1 (exec (@resolve_alerts sample_builtins sample_world true
                         resolve_all_script) two_active) = Some (VStr "critical")
  ∧ active_from 0 (sent_alerts (exec (@resolve_alerts sample_builtins sample_world
                                        true resolve_all_script) two_active))
    = [1].
Proof. split_and!; vm_compute; reflexivity. Qed.

(** C8. The constructor at a ledger file whose bytes are no text: reading
    it raises [UnicodeDecodeError], which the handler of [JSONDecodeError]
    and [IOError] does not catch, and the error leaves the constructor and
    the program, where the claim has the list of sent alerts start empty.
    The same holds, with [PermissionError], when the path of the file cannot
    be examined, since [exists] is called before the [try]. *)
Lemma corrupt_ledger_file_raises :
  fst (DemoSimulator sample_config FileUndecodable) = Raise UnicodeDecodeError
  ∧ fst (@main sample_builtins sample_world sample_config FileUndecodable
           false false false [Choice5])
    = Raise UnicodeDecodeError
  ∧ fst (DemoSimulator sample_config FileInaccessible) = Raise PermissionError
  ∧ fst (@main sample_builtins sample_world sample_config FileInaccessible
           false false false [Choice5])
    = Raise PermissionError.
Proof. split_and!; reflexivity. Qed.

(** C6. A resolve of three active alerts in a world that accepts the first
    delivery and refuses the second with a body that holds a closing tag.
    Printing that body raises [MarkupError] inside [send_to_bigpanda], whose
    handler covers only [RequestException]; the error leaves the loop and
    [resolve_alerts].  The third alert, whose delivery would have been
    accepted, is never attempted, and the ledger is not saved, so that the
    file still holds the first alert as "critical" while the platform and
    the list in memory have it resolved. *)
Lemma refused_reply_stops_the_batch :
  select_to_resolve true resolve_all_script
    (active_from 0 (sent_alerts three_active)) = Some [0; 1; 2]
  ∧ @delivered stray_tag_world (length (requests three_active)) = true
  ∧ @delivered stray_tag_world (length (requests three_active) + 1) = false
  ∧ @markup_ok sample_builtins
      (@post_text stray_tag_world (length (requests three_active) + 1)) = false
  ∧ @delivered stray_tag_world (length (requests three_active) + 2) = true
  ∧ fst (@resolve_alerts sample_builtins stray_tag_world true resolve_all_script
           three_active) = Raise MarkupError
  ∧ length (requests (exec (@resolve_alerts sample_builtins stray_tag_world true
                              resolve_all_script) three_active))
    = length (requests three_active) + 2
  ∧ status_at 0 (exec (@resolve_alerts sample_builtins stray_tag_world true
                         resolve_all_script) three_active) = Some (VStr "ok")
  ∧ status_at 2 (exec (@resolve_alerts sample_builtins stray_tag_world true
                         resolve_all_script) three_active)
    = Some (VStr "critical")
  ∧ file_writes (exec (@resolve_alerts sample_builtins stray_tag_world true
                         resolve_all_script) three_active)
    = file_writes three_active
  ∧ file (exec (@resolve_alerts sample_builtins stray_tag_world true
                  resolve_all_script) three_active)
    = FileDocument (sent_alerts three_active)
  ∧ status_at 0 three_active = Some (VStr "critical").
Proof. split_and!; vm_compute; reflexivity. Qed.

(** ** The text helper *)

Lemma str_length_app (a b : string) :
  String.length (a ++ b) = String.length a + String.length b.
Proof. induction a as [|c a IH]; simpl; [done|]. by rewrite IH. Qed.

Lemma str_take_length (n : nat) (s : string) :
  String.length (str_take n s) = n `min` String.length s.
Proof.
  revert s. induction n as [|n IH]; intros [|c s]; simpl; try done.
  by rewrite IH.
Qed.

Lemma str_take_prefix (n : nat) (s : string) :
  String.prefix (str_take n s) s = true.
Proof.
  revert s. induction n as [|n IH]; intros [|c s]; simpl; try done.
  destruct (ascii_dec c c); [apply IH|done].
Qed.

(** X1. [truncate] of a string never raises.  For the empty string it gives
    "N/A".  For any other string, when the suffix is no longer than
    [max_len], the result has at most [max_len] characters: it is the text
    itself when that fits, and otherwise a prefix of the text followed by
    the suffix. *)
Theorem truncate_bound (s : string) (max_len : Z) (suffix : string)
    (Hsuffix : (Z.of_nat (String.length suffix) <= max_len)%Z) :
  ∃ out,
    truncate (VStr s) max_len suffix = Some (VStr out)
    ∧ ((s = "" ∧ out = "N/A")
       ∨ (s ≠ ""
          ∧ (Z.of_nat (String.length out) <= max_len)%Z
          ∧ (((Z.of_nat (String.length s) <= max_len)%Z ∧ out = s)
             ∨ ((max_len < Z.of_nat (String.length s))%Z
                ∧ ∃ kept, out = kept ++ suffix
                          ∧ String.prefix kept s = true)))).
Proof.
  unfold truncate. cbn [truthy].
  destruct (String.eqb_spec s "") as [->|Hne]; cbn [negb].
  { eexists. split; [reflexivity|]. by left. }
  eexists. split; [reflexivity|]. right. split; [done|].
  destruct (Z.ltb_spec max_len (Z.of_nat (String.length s))) as [Hlong|Hfits].
  - split.
    + rewrite str_length_app. unfold slice_to.
      destruct (Z.leb_spec 0 (max_len - Z.of_nat (String.length suffix))); [|lia].
      rewrite str_take_length. lia.
    + right. split; [done|]. eexists. split; [reflexivity|].
      unfold slice_to. destruct (_ <=? _)%Z; apply str_take_prefix.
  - split; [done|]. left. by split.
Qed.

Lemma truncate_bound_witness :
  (Z.of_nat (String.length "...") <= 18)%Z
  ∧ truncate (VStr "Dallas-Fort Worth, Texas") 18 "..."
    = Some (VStr "Dallas-Fort Wor...").
Proof.
  assert (Hsuffix : (Z.of_nat (String.length "...") <= 18)%Z) by (vm_compute; discriminate).
  split; [exact Hsuffix|].
  destruct (truncate_bound "Dallas-Fort Worth, Texas" 18 "..." Hsuffix)
    as (out & Hout & _).
  rewrite Hout. vm_compute in Hout. injection Hout as <-. reflexivity.
Defined.

(** ** More on the event filter *)

Section FilterMore.
Context `{PyBuiltins}.

(** An event the loop cannot examine makes it raise. *)
Lemma examine_ill_shaped (now cutoff : Z) (e : pyval) :
  event_shape_ok e = false → examine now cutoff e = Raise AttributeError.
Proof.
  unfold event_shape_ok, examine.
  destruct e as [| | | | |?|d]; try done. intros Hshape.
  apply orb_false_elim in Hshape as [Hshape Hstr].
  apply orb_false_elim in Hshape as [Hactive Hstart].
  apply negb_false_iff in Hactive, Hstart. rewrite Hactive, Hstart. cbn [negb].
  by destruct (dict_get d "start_time" VNone).
Qed.

(** The verdict on an event is [SkipInactive] exactly when it is inactive. *)
Lemma examine_inactive (now cutoff : Z) (e : pyval) (v : verdict) :
  examine now cutoff e = Ok v → (v = SkipInactive ↔ event_active e = false).
Proof.
  unfold examine, event_active.
  destruct e as [| | | | |?|d]; try done.
  destruct (truthy (dict_get d "is_active" (VBool false))); cbn [negb].
  2:{ intros [= <-]. done. }
  intros Hv. split; [|done]. intros ->.
  destruct (truthy (dict_get d "start_time" VNone)); [|done].
  destruct (dict_get d "start_time" VNone); try done.
  destruct (fromisoformat _); try done.
  by repeat case_match.
Qed.

Lemma examine_raise_only (now cutoff : Z) (e : pyval) (x : pyexn) :
  examine now cutoff e = Raise x → x = AttributeError.
Proof.
  unfold examine. intros Hraise. by repeat case_match; simplify_eq.
Qed.

Lemma filter_loop_raises (now cutoff : Z) (events : list pyval) (acc : filter_acc) :
  Exists (fun e => event_shape_ok e = false) events →
  filter_loop now cutoff events acc = Raise AttributeError.
Proof.
  intros Hbad. revert acc.
  induction Hbad as [e events Hbad|e events _ IH]; intros acc; cbn [filter_loop].
  - by rewrite (examine_ill_shaped now cutoff e Hbad).
  - destruct (examine now cutoff e) as [[]|x] eqn:Hexamine; try apply IH.
    by rewrite (examine_raise_only now cutoff e x Hexamine).
Qed.

(** The counters of the loop: every event is kept, counted as future or as
    stale, or is inactive. *)
Lemma filter_loop_counts (now cutoff : Z) (events : list pyval)
    (acc acc' : filter_acc) :
  filter_loop now cutoff events acc = Ok acc' →
  length (active_events acc') + skipped_future acc' + skipped_stale acc'
  + length (List.filter (fun e => negb (event_active e)) events)
  = length (active_events acc) + skipped_future acc + skipped_stale acc
    + length events.
Proof.
  revert acc. induction events as [|e events IH]; intros acc; cbn [filter_loop].
  - intros [= <-]. simpl. lia.
  - destruct (examine now cutoff e) as [v|x] eqn:Hexamine; [|done].
    pose proof (examine_inactive now cutoff e v Hexamine) as Hinactive.
    cbn [List.filter].
    destruct v; intros Hloop; apply IH in Hloop; cbn [active_events skipped_future
      skipped_stale] in Hloop.
    + destruct (event_active e); [|discriminate (proj2 Hinactive eq_refl)].
      cbn [negb]. rewrite length_app in Hloop. simpl in *. lia.
    + rewrite (proj1 Hinactive eq_refl). simpl in *. lia.
    + destruct (event_active e); [|discriminate (proj2 Hinactive eq_refl)].
      simpl in *. lia.
    + destruct (event_active e); [|discriminate (proj2 Hinactive eq_refl)].
      simpl in *. lia.
Qed.

Lemma keeps_shape_ok (now max_age_hours : Z) (e : pyval) :
  keeps now max_age_hours e = true →
  event_shape_ok e = true → event_active e = true.
Proof.
  unfold keeps, event_active. destruct e; try done.
  by intros [? _]%andb_true_iff.
Qed.

Lemma keeps_mono (now max_age max_age' : Z) (e : pyval) :
  (max_age <= max_age')%Z →
  keeps now max_age e = true → keeps now max_age' e = true.
Proof.
  intros Hle. unfold keeps. destruct e as [| | | | |?|d]; try done.
  destruct (truthy (dict_get d "is_active" (VBool false))); [|done].
  cbn [andb]. destruct (dict_get d "start_time" VNone); try done.
  destruct (truthy (VStr s)); [|done].
  destruct (fromisoformat _) as [| |start_dt]; try done.
  rewrite !andb_true_iff, !Z.leb_le. unfold timedelta_hours. lia.
Qed.

Lemma filter_filter {A} (f : A → bool) (l : list A) :
  List.filter f (List.filter f l) = List.filter f l.
Proof.
  induction l as [|x l IH]; [done|]. cbn [List.filter].
  destruct (f x) eqn:Hx; [|done]. cbn [List.filter]. by rewrite Hx, IH.
Qed.

Lemma filter_sublist {A} (f : A → bool) (l : list A) :
  List.filter f l `sublist_of` l.
Proof.
  induction l as [|x l IH]; [done|]. cbn [List.filter].
  destruct (f x); by constructor.
Qed.

Lemma filter_sublist_mono {A} (f g : A → bool) (l : list A) :
  (∀ x, f x = true → g x = true) →
  List.filter f l `sublist_of` List.filter g l.
Proof.
  intros Hfg. induction l as [|x l IH]; [done|]. cbn [List.filter].
  destruct (f x) eqn:Hx.
  - rewrite (Hfg x Hx). by constructor.
  - destruct (g x); [by constructor|done].
Qed.

Lemma Forall_filter_keeps (f : pyval → bool) (P : pyval → Prop) (l : list pyval) :
  Forall P l → Forall P (List.filter f l).
Proof.
  intros Hl.
  induction Hl as [|x l Hx _ IH]; [constructor|]. cbn [List.filter].
  destruct (f x); [by constructor|done].
Qed.

(** When the filter returns, the feed was well shaped and the events kept
    are those that satisfy [keeps]. *)
Lemma filter_returns_shape (now max_age_hours : Z) (events : list pyval)
    (acc : filter_acc) :
  filter_active_events now max_age_hours events = Ok acc →
  Forall (fun e => event_shape_ok e = true) events
  ∧ active_events acc = List.filter (keeps now max_age_hours) events.
Proof.
  intros Hrun.
  destruct (decide (Forall (fun e => event_shape_ok e = true) events))
    as [Hshape|Hbad].
  - split; [done|].
    destruct (filter_loop_keeps now max_age_hours events
                {| active_events := []; skipped_future := 0; skipped_stale := 0 |}
                Hshape) as (acc' & Hrun' & Hkept).
    unfold filter_active_events in Hrun. cbv zeta in Hrun.
    rewrite Hrun' in Hrun. by injection Hrun as <-.
  - apply not_Forall_Exists in Hbad; [|apply _].
    assert (Hbad' : Exists (fun e => event_shape_ok e = false) events).
    { eapply Exists_impl; [exact Hbad|]. intros e He. unfold compose in He.
      destruct (event_shape_ok e); [by destruct He|done]. }
    unfold filter_active_events in Hrun. cbv zeta in Hrun.
    by rewrite (filter_loop_raises _ _ _ _ Hbad') in Hrun.
Qed.

End FilterMore.

(** X2. The filter either returns, and then every event of the feed is an
    object whose start time, when the event is active and the field is not
    empty, is a string; or some event is not of that shape, and then the
    filter raises [AttributeError] whatever the other events are. *)
Theorem filter_raises_iff_ill_shaped `{PyBuiltins} (now max_age_hours : Z)
    (events : list pyval) :
  (Forall (fun e => event_shape_ok e = true) events
   ∧ ∃ acc, filter_active_events now max_age_hours events = Ok acc)
  ∨ (Exists (fun e => event_shape_ok e = false) events
     ∧ filter_active_events now max_age_hours events = Raise AttributeError).
Proof.
  destruct (decide (Forall (fun e => event_shape_ok e = true) events))
    as [Hshape|Hbad].
  - left. split; [done|].
    destruct (filter_loop_keeps now max_age_hours events
                {| active_events := []; skipped_future := 0; skipped_stale := 0 |}
                Hshape) as (acc & Hrun & _).
    by exists acc.
  - right. apply not_Forall_Exists in Hbad; [|apply _].
    assert (Hbad' : Exists (fun e => event_shape_ok e = false) events).
    { eapply Exists_impl; [exact Hbad|]. intros e He. unfold compose in He.
      destruct (event_shape_ok e); [by destruct He|done]. }
    split; [done|]. by apply filter_loop_raises.
Qed.

(** X3. When the filter returns, its counters account for every event of
    the feed: the events kept, those skipped as future, those skipped as stale
    and the inactive ones add up to the length of the feed. *)
Theorem filter_counts_add_up `{PyBuiltins} (now max_age_hours : Z)
    (events : list pyval) (acc : filter_acc)
    (Hrun : filter_active_events now max_age_hours events = Ok acc) :
  length (active_events acc) + skipped_future acc + skipped_stale acc
  + length (List.filter (fun e => negb (event_active e)) events)
  = length events.
Proof.
  unfold filter_active_events in Hrun.
  apply filter_loop_counts in Hrun. simpl in Hrun. lia.
Qed.

Lemma filter_counts_add_up_witness :
  @filter_active_events sample_builtins sample_now MAX_EVENT_AGE_HOURS sample_feed
  = Ok {| active_events :=
            [VDict sample_event; VDict garbled_event; VDict naive_future_event];
          skipped_future := 1; skipped_stale := 1 |}
  ∧ 3 + 1 + 1
    + length (List.filter (fun e => negb (event_active e)) sample_feed)
    = length sample_feed.
Proof.
  assert (Hrun : @filter_active_events sample_builtins sample_now
                   MAX_EVENT_AGE_HOURS sample_feed
                 = Ok {| active_events :=
                           [VDict sample_event; VDict garbled_event;
                            VDict naive_future_event];
                         skipped_future := 1; skipped_stale := 1 |})
    by (vm_compute; reflexivity).
  split; [exact Hrun|].
  exact (@filter_counts_add_up sample_builtins _ _ _ _ Hrun).
Defined.

(** X4. Filtering is idempotent: when the filter returns, the events it kept
    are a sublist of the feed, and filtering them again at the same time and
    with the same maximum age keeps them all and skips none. *)
Theorem filter_is_idempotent `{PyBuiltins} (now max_age_hours : Z)
    (events : list pyval) (acc : filter_acc)
    (Hrun : filter_active_events now max_age_hours events = Ok acc) :
  active_events acc `sublist_of` events
  ∧ filter_active_events now max_age_hours (active_events acc)
    = Ok {| active_events := active_events acc;
            skipped_future := 0; skipped_stale := 0 |}.
Proof.
  destruct (filter_returns_shape now max_age_hours events acc Hrun)
    as (Hshape & Hkept).
  split; [rewrite Hkept; apply filter_sublist|].
  assert (Hshape' : Forall (fun e => event_shape_ok e = true) (active_events acc)).
  { rewrite Hkept. by apply Forall_filter_keeps. }
  destruct (filter_loop_keeps now max_age_hours (active_events acc)
              {| active_events := []; skipped_future := 0; skipped_stale := 0 |}
              Hshape') as (acc' & Hrun' & Hkept').
  unfold filter_active_events. rewrite Hrun'.
  cbn [active_events app] in Hkept'.
  rewrite Hkept, filter_filter, <- Hkept in Hkept'.
  pose proof (filter_loop_counts _ _ _ _ _ Hrun') as Hcount.
  cbn [active_events skipped_future skipped_stale] in Hcount.
  rewrite Hkept' in Hcount.
  destruct acc' as [kept future stale]. cbn in *. subst kept.
  f_equal. f_equal; lia.
Qed.

Lemma filter_is_idempotent_witness :
  @filter_active_events sample_builtins sample_now MAX_EVENT_AGE_HOURS sample_feed
  = Ok {| active_events :=
            [VDict sample_event; VDict garbled_event; VDict naive_future_event];
          skipped_future := 1; skipped_stale := 1 |}
  ∧ @filter_active_events sample_builtins sample_now MAX_EVENT_AGE_HOURS
      [VDict sample_event; VDict garbled_event; VDict naive_future_event]
    = Ok {| active_events :=
              [VDict sample_event; VDict garbled_event; VDict naive_future_event];
            skipped_future := 0; skipped_stale := 0 |}.
Proof.
  assert (Hrun : @filter_active_events sample_builtins sample_now
                   MAX_EVENT_AGE_HOURS sample_feed
                 = Ok {| active_events :=
                           [VDict sample_event; VDict garbled_event;
                            VDict naive_future_event];
                         skipped_future := 1; skipped_stale := 1 |})
    by (vm_compute; reflexivity).
  split; [exact Hrun|].
  exact (proj2 (@filter_is_idempotent sample_builtins _ _ _ _ Hrun)).
Defined.

(** X5. A longer maximum age keeps more: for a feed the filter can examine,
    the events kept with a maximum age are a sublist of those kept, at the
    same time, with any greater maximum age, which are a sublist of the
    feed. *)
Theorem filter_is_monotone_in_age `{PyBuiltins} (now max_age max_age' : Z)
    (events : list pyval)
    (Hshape : Forall (fun e => event_shape_ok e = true) events)
    (Hage : (max_age <= max_age')%Z) :
  ∃ acc acc',
    filter_active_events now max_age events = Ok acc
    ∧ filter_active_events now max_age' events = Ok acc'
    ∧ active_events acc `sublist_of` active_events acc'
    ∧ active_events acc' `sublist_of` events.
Proof.
  destruct (filter_loop_keeps now max_age events
              {| active_events := []; skipped_future := 0; skipped_stale := 0 |}
              Hshape) as (acc & Hrun & Hkept).
  destruct (filter_loop_keeps now max_age' events
              {| active_events := []; skipped_future := 0; skipped_stale := 0 |}
              Hshape) as (acc' & Hrun' & Hkept').
  exists acc, acc'. split_and!; [done..| |].
  - rewrite Hkept, Hkept'. apply filter_sublist_mono.
    intros e. by apply keeps_mono.
  - rewrite Hkept'. apply filter_sublist.
Qed.

Lemma filter_is_monotone_in_age_witness :
  Forall (fun e => event_shape_ok e = true) sample_feed
  ∧ (MAX_EVENT_AGE_HOURS <= 24)%Z
  ∧ ∃ acc acc',
      @filter_active_events sample_builtins sample_now MAX_EVENT_AGE_HOURS
        sample_feed = Ok acc
      ∧ @filter_active_events sample_builtins sample_now 24 sample_feed = Ok acc'
      ∧ active_events acc `sublist_of` active_events acc'.
Proof.
  assert (Hshape : Forall (fun e => event_shape_ok e = true) sample_feed)
    by (repeat constructor).
  assert (Hage : (MAX_EVENT_AGE_HOURS <= 24)%Z) by (vm_compute; discriminate).
  split; [exact Hshape|]. split; [exact Hage|].
  destruct (@filter_is_monotone_in_age sample_builtins sample_now
              MAX_EVENT_AGE_HOURS 24 sample_feed Hshape Hage)
    as (acc & acc' & Hrun & Hrun' & Hsub & _).
  exists acc, acc'. by split_and!.
Defined.

(** ** More on the payload builder *)

(** X7. Building a payload from a payload gives what building from the
    original alert gives: the defaults and the wrapping of
    [known_dependencies] are applied once and are then stable, and only the
    status and the timestamp follow the new call.  In particular building is
    idempotent. *)
Theorem build_of_payload_is_build (g : pydict) (status status' : pyval)
    (t t' : Z) :
  build_bigpanda_payload (build_bigpanda_payload g status t) status' t'
  = build_bigpanda_payload g status' t'
  ∧ build_bigpanda_payload (build_bigpanda_payload g status t) status t
    = build_bigpanda_payload g status t.
Proof.
  assert (Hgen : ∀ s1 t1 s2 t2,
            build_bigpanda_payload (build_bigpanda_payload g s1 t1) s2 t2
            = build_bigpanda_payload g s2 t2).
  { intros s1 t1 s2 t2.
    unfold build_bigpanda_payload at 1. unfold dict_literal.
    assert (Hdeps : (let deps := dict_get (build_bigpanda_payload g s1 t1)
                                   "known_dependencies" (VList []) in
                     if is_str deps then VList [deps] else deps)
                    = (let deps := dict_get g "known_dependencies" (VList []) in
                       if is_str deps then VList [deps] else deps)).
    { cbv zeta.
      change (dict_get (build_bigpanda_payload g s1 t1) "known_dependencies"
                (VList []))
        with (let deps := dict_get g "known_dependencies" (VList []) in
              if is_str deps then VList [deps] else deps).
      cbv zeta. by destruct (is_str (dict_get g "known_dependencies" (VList []))) eqn:Hs;
        [|rewrite Hs]. }
    cbv zeta in Hdeps. cbv zeta. rewrite Hdeps. reflexivity. }
  split; apply Hgen.
Qed.

(** ** More on the operations *)

Section Frames.
Context `{PyBuiltins} `{World}.

(** A state in which nothing was posted to the alerts endpoint holds no new
    alert request. *)
Lemma quiet_no_post st st' n payload :
  quiet st st' → length (requests st) ≤ n →
  requests st' !! n = Some (PostAlert payload) → False.
Proof.
  intros (_ & _ & _ & more & Hreq & Hmore) Hn Hlookup.
  rewrite Hreq, lookup_app_r in Hlookup by done.
  rewrite Forall_lookup in Hmore.
  by pose proof (Hmore _ _ Hlookup).
Qed.

(** What one pass of the resolve loop leaves alone. *)
Lemma resolve_one_frame p st :
  cfg (snd (resolve_one p st)) = cfg st
  ∧ events (snd (resolve_one p st)) = events st
  ∧ ∃ more, requests (snd (resolve_one p st)) = (requests st ++ more)%list
            ∧ Forall (fun r => ∃ alert t, r = PostAlert (ok_payload alert t)) more.
Proof.
  destruct (sent_alerts st !! p) as [r|] eqn:Hp.
  - rewrite (resolve_one_run p r st Hp).
    destruct (pass_marks r (length (requests st))); unfold posted_ok; proj_simpl;
      (split_and!; [done..|]); eexists; (split; [reflexivity|]);
      repeat constructor; by eexists _, _.
  - rewrite (resolve_one_missing p st Hp). split_and!; [done..|].
    exists []. by rewrite app_nil_r.
Qed.

Lemma resolve_loop_frame to_resolve success_count st :
  cfg (snd (resolve_loop to_resolve success_count st)) = cfg st
  ∧ events (snd (resolve_loop to_resolve success_count st)) = events st
  ∧ ∃ more, requests (snd (resolve_loop to_resolve success_count st))
            = (requests st ++ more)%list
            ∧ Forall (fun r => ∃ alert t, r = PostAlert (ok_payload alert t)) more.
Proof.
  revert success_count st.
  induction to_resolve as [|p rest IH]; intros success_count st.
  - simpl. split_and!; [done..|]. exists []. by rewrite app_nil_r.
  - cbn [resolve_loop]. unfold mbind, M_bind.
    destruct (resolve_one_frame p st) as (Hc & He & more & Hreq & Hmore).
    destruct (resolve_one p st) as [[success|e] st1]; cbn [fst snd] in *.
    2:{ split_and!; [done..|]. by exists more. }
    destruct (IH (if success then success_count + 1 else success_count) st1)
      as (Hc' & He' & more' & Hreq' & Hmore').
    split_and!; [congruence..|].
    exists (more ++ more')%list. split; [by rewrite Hreq', Hreq, app_assoc|].
    by apply Forall_app.
Qed.

Lemma active_from_filter k (l : list pydict) :
  active_from k l = [] → List.filter is_active l = [].
Proof.
  revert k. induction l as [|a l IH]; intros k; [done|].
  cbn [active_from List.filter]. destruct (is_active a); [done|]. apply IH.
Qed.

(** Without an active alert the listing has no table to build. *)
Lemma show_sent_alerts_no_active st :
  active_from 0 (sent_alerts st) = [] → show_sent_alerts st = (Ok [], st).
Proof.
  intros Hnone.
  unfold show_sent_alerts, lift, mbind, M_bind, mret, M_ret, get_self.
  destruct (sent_alerts st) as [|a alerts] eqn:Hl; [done|].
  by rewrite (active_from_filter 0 _ Hnone), Hnone.
Qed.

(** A resolve without an active alert does nothing. *)
Lemma resolve_alerts_no_active auto_all script st :
  active_from 0 (sent_alerts st) = [] →
  resolve_alerts auto_all script st = (Ok tt, st).
Proof.
  intros Hnone. unfold resolve_alerts, mbind, M_bind.
  by rewrite (show_sent_alerts_no_active st Hnone).
Qed.

Lemma is_active_mark_resolved utcnow r : is_active (mark_resolved utcnow r) = false.
Proof.
  unfold is_active, dict_get. by rewrite mark_resolved_status.
Qed.

Lemma active_from_nil l :
  (∀ p r, l !! p = Some r → is_active r = false) → active_from 0 l = [].
Proof.
  intros Hnone. destruct (active_from 0 l) as [|p rest] eqn:Hactive; [done|].
  assert (Hp : p ∈ active_from 0 l) by (rewrite Hactive; left).
  apply elem_of_active in Hp as (r & Hr & Hact).
  by rewrite (Hnone p r Hr) in Hact.
Qed.

(** The length of the ledger over one operation. *)
Lemma perform_length op st :
  length (sent_alerts st) ≤ length (sent_alerts (exec (perform op) st))
  ∧ length (sent_alerts (exec (perform op) st))
    ≤ length (sent_alerts st) + (if can_grow op then 1 else 0).
Proof.
  destruct op as [script|payload event|auto_all script| |confirm];
    cbn [perform can_grow].
  - destruct (flow_ledger st script) as [_ [-> |[r ->]]]; [lia|].
    rewrite length_app. simpl. lia.
  - unfold exec. rewrite track_sent_alert_run. proj_simpl.
    rewrite length_app. simpl. lia.
  - destruct (resolve_alerts_cases auto_all script st)
      as [-> |[to_resolve [-> | ->]]]; [lia| |];
      destruct (resolve_loop_step to_resolve 0 st) as (_ & _ & Hlen & _);
      unfold exec; proj_simpl; lia.
  - unfold exec, mbind, M_bind. rewrite show_sent_alerts_run.
    destruct (fst (show_sent_alerts st)); simpl; lia.
  - unfold exec, setup_oim_integration. destruct confirm; simpl; lia.
Qed.

End Frames.

(** X8. Every alert an operation posts carries the marker
    [eo_correlator = "true"]; an alert posted by the generate-and-send flow is
    an open payload with status "critical", an alert posted by a resolve is a
    resolve payload with status "ok", and tracking, listing and the
    integration setup post no alert. *)
Theorem posted_alerts_by_operation `{PyBuiltins} `{World}
    (op : operation) (st : simulator) (n : nat) (payload : pydict)
    (Hnew : length (requests st) ≤ n)
    (Hposted : requests (exec (perform op) st) !! n = Some (PostAlert payload)) :
  payload !! "eo_correlator" = Some (VStr "true")
  ∧ ((∃ script, op = OpGenerate script
                ∧ payload !! "status" = Some (VStr "critical")
                ∧ dom payload = list_to_set payload_keys)
     ∨ (∃ auto_all script, op = OpResolve auto_all script
                           ∧ payload !! "status" = Some (VStr "ok")
                           ∧ dom payload = list_to_set ok_payload_keys)).
Proof.
  destruct op as [script|payload' event|auto_all script| |confirm];
    cbn [perform] in Hposted.
  - destruct (flow_cases st script)
      as [Hq|(mid & g & t & event & Hq & Hreq & _)].
    + destruct (quiet_no_post _ _ _ _ Hq Hnew Hposted).
    + rewrite Hreq in Hposted.
      apply lookup_snoc_Some in Hposted as [[_ Hmid]|[_ Hlast]].
      * destruct (quiet_no_post _ _ _ _ Hq Hnew Hmid).
      * injection Hlast as <-. split; [reflexivity|]. left. exists script.
        split_and!; [done..|].
        unfold build_bigpanda_payload, dict_literal.
        by rewrite dom_list_to_map_L.
  - unfold exec in Hposted. rewrite track_sent_alert_run in Hposted.
    proj_simpl. apply lookup_lt_Some in Hposted. lia.
  - assert (Hloop : ∀ l, requests (snd (resolve_loop l 0 st)) !! n
                         = Some (PostAlert payload) →
              payload !! "eo_correlator" = Some (VStr "true")
              ∧ payload !! "status" = Some (VStr "ok")
              ∧ dom payload = list_to_set ok_payload_keys).
    { intros l Hl.
      destruct (resolve_loop_frame l 0 st) as (_ & _ & more & Hreq & Hmore).
      rewrite Hreq, lookup_app_r in Hl by done.
      rewrite Forall_lookup in Hmore.
      destruct (Hmore _ _ Hl) as (alert & t & [= ->]).
      split_and!; [reflexivity..|].
      unfold ok_payload, dict_literal. by rewrite dom_list_to_map_L. }
    destruct (resolve_alerts_cases auto_all script st)
      as [Hsame|[l [Hloop'|Hloop']]]; rewrite ?Hsame, ?Hloop' in Hposted.
    + apply lookup_lt_Some in Hposted. lia.
    + destruct (Hloop l Hposted) as (Hmarker & Hstatus & Hdom).
      split; [done|]. right. by exists auto_all, script.
    + unfold exec in Hposted. proj_simpl.
      destruct (Hloop l Hposted) as (Hmarker & Hstatus & Hdom).
      split; [done|]. right. by exists auto_all, script.
  - unfold exec, mbind, M_bind in Hposted. rewrite show_sent_alerts_run in Hposted.
    destruct (fst (show_sent_alerts st)); simpl in Hposted;
      apply lookup_lt_Some in Hposted; lia.
  - unfold exec, setup_oim_integration in Hposted.
    destruct confirm; simpl in Hposted.
    + apply lookup_snoc_Some in Hposted as [[Hlt _]|[_ Hlast]]; [lia|done].
    + apply lookup_lt_Some in Hposted. lia.
Qed.

Lemma posted_alerts_by_operation_witness :
  length (requests fresh_simulator) ≤ 2
  ∧ (∃ payload,
       requests (exec (@perform sample_builtins sample_world (OpGenerate send_script))
                   fresh_simulator) !! 2 = Some (PostAlert payload)
       ∧ payload !! "status" = Some (VStr "critical")).
Proof.
  assert (Hnew : length (requests fresh_simulator) ≤ 2) by (vm_compute; lia).
  split; [exact Hnew|].
  destruct (requests (exec (@perform sample_builtins sample_world
                              (OpGenerate send_script)) fresh_simulator) !! 2)
    as [[| |payload|]|] eqn:Hposted; try (vm_compute in Hposted; discriminate).
  exists payload. split; [reflexivity|].
  destruct (@posted_alerts_by_operation sample_builtins sample_world
              (OpGenerate send_script) fresh_simulator 2 payload Hnew Hposted)
    as (_ & [(script & _ & Hstatus & _)|(a & s & Hop & _)]);
    [exact Hstatus|discriminate Hop].
Defined.

(** X15. The ledger never shrinks: over any sequence of operations its
    length does not decrease, and it grows by at most one record for each
    generate-and-send flow or tracking in the sequence; resolving, listing and
    the integration setup add no record. *)
Theorem ledger_never_shrinks `{PyBuiltins} `{World}
    (ops : list operation) (st : simulator) :
  length (sent_alerts st) ≤ length (sent_alerts (after ops st))
  ∧ length (sent_alerts (after ops st))
    ≤ length (sent_alerts st) + length (List.filter can_grow ops).
Proof.
  revert st. induction ops as [|op ops IH]; intros st; [simpl; lia|].
  cbn [after fold_left List.filter].
  destruct (perform_length op st) as [Hlow Hhigh].
  destruct (IH (exec (perform op) st)) as [IHlow IHhigh].
  unfold after in *. destruct (can_grow op); simpl in *; lia.
Qed.

(** ** More on resolving *)

Section ResolveMore.
Context `{PyBuiltins} `{World}.

(** Numbers outside [1..n] pick nothing. *)
Lemma omap_out_of_range (alert_map : list nat) (indices : list Z) :
  Forall (fun i => (i < 1)%Z ∨ (Z.of_nat (length alert_map) < i)%Z) indices →
  omap (alert_map_get alert_map) indices = [].
Proof.
  induction 1 as [|i indices Hi _ IH]; [done|].
  cbn [omap list_omap]. fold (omap (alert_map_get alert_map) indices).
  rewrite IH. unfold alert_map_get.
  destruct (Z.leb_spec 1 i) as [Hle|Hlt]; [|done].
  destruct Hi as [Hi|Hi]; [lia|].
  rewrite lookup_ge_None_2; [done|lia].
Qed.

Lemma count_delivered_S n k :
  count_delivered n (S k)
  = (if delivered n then 1 else 0) + count_delivered (S n) k.
Proof.
  unfold count_delivered. cbn [seq List.filter].
  by destruct (delivered n).
Qed.

(** Replacing an active record by an inactive one takes one off the active
    list. *)
Lemma active_from_insert k l p r r' :
  l !! p = Some r → is_active r = true → is_active r' = false →
  length (active_from k (<[p := r']> l)) + 1 = length (active_from k l).
Proof.
  revert k p. induction l as [|a l IH]; intros k p Hp Hr Hr'; [done|].
  destruct p as [|p]; simpl in Hp.
  - injection Hp as ->. cbn [active_from]. simpl. rewrite Hr, Hr'. simpl. lia.
  - change (<[S p := r']> (a :: l)) with (a :: <[p := r']> l).
    cbn [active_from]. specialize (IH (S k) p Hp Hr Hr').
    destruct (is_active a); simpl; lia.
Qed.

(** A loop that returns, over distinct active records: the count it reports
    is the number of accepted deliveries, and the active list shrinks by
    it. *)
Lemma resolve_loop_count to_resolve success_count st count :
  NoDup to_resolve →
  (∀ p, p ∈ to_resolve → ∃ r, sent_alerts st !! p = Some r ∧ is_active r = true) →
  fst (resolve_loop to_resolve success_count st) = Ok count →
  count = success_count
          + count_delivered (length (requests st)) (length to_resolve)
  ∧ length (active_from 0 (sent_alerts (snd (resolve_loop to_resolve success_count st))))
    + count_delivered (length (requests st)) (length to_resolve)
    = length (active_from 0 (sent_alerts st)).
Proof.
  revert success_count st.
  induction to_resolve as [|p0 rest IH]; intros success_count st Hdistinct Hactive.
  { simpl. unfold count_delivered. simpl. intros [= <-]. split; lia. }
  apply NoDup_cons in Hdistinct as [Hp0 Hdistinct].
  destruct (Hactive p0) as (r0 & Hr0 & Hact0); [by left|].
  cbn [resolve_loop length]. unfold mbind, M_bind.
  rewrite count_delivered_S.
  rewrite (resolve_one_run p0 r0 st Hr0).
  destruct (pass_result r0 (length (requests st))) as [success|e] eqn:Hpass;
    [|done].
  apply pass_result_ok in Hpass as [-> ->].
  destruct (delivered (length (requests st))) eqn:Hd; unfold posted_ok;
    intros Hreturns.
  - set (st1 := set_sent_alerts _ _) in *.
    assert (Hactive1 : ∀ p, p ∈ rest →
              ∃ r, sent_alerts st1 !! p = Some r ∧ is_active r = true).
    { intros p Hp. destruct (Hactive p) as (r & Hr & Hact); [by right|].
      exists r. split; [|done]. unfold st1. proj_simpl.
      rewrite list_lookup_insert_ne; [done|]. by intros ->. }
    destruct (IH (success_count + 1) st1 Hdistinct Hactive1 Hreturns)
      as [IHok IHlen].
    assert (Hreq : length (requests st1) = S (length (requests st))).
    { unfold st1. proj_simpl. rewrite length_app. simpl. lia. }
    rewrite Hreq in IHok, IHlen. split; [lia|].
    pose proof (active_from_insert 0 (sent_alerts st) p0 r0
                  (mark_resolved (clock_us (S (clock_reads st))) r0)
                  Hr0 Hact0 (is_active_mark_resolved _ _)) as Hins.
    unfold st1 in IHlen at 2. proj_simpl. lia.
  - set (st1 := add_request _ _) in *.
    assert (Hactive1 : ∀ p, p ∈ rest →
              ∃ r, sent_alerts st1 !! p = Some r ∧ is_active r = true).
    { intros p Hp. apply Hactive. by right. }
    destruct (IH success_count st1 Hdistinct Hactive1 Hreturns) as [IHok IHlen].
    assert (Hreq : length (requests st1) = S (length (requests st))).
    { unfold st1. proj_simpl. rewrite length_app. simpl. lia. }
    rewrite Hreq in IHok, IHlen. split; [lia|].
    unfold st1 in IHlen at 2. proj_simpl. lia.
Qed.

Lemma list_omap_ext_Forall {A B} (f g : A → option B) (l : list A) :
  Forall (fun x => f x = g x) l → omap f l = omap g l.
Proof.
  induction 1 as [|x l Hx _ IH]; [done|].
  change (omap f (x :: l))
    with (match f x with Some y => y :: omap f l | None => omap f l end).
  change (omap g (x :: l))
    with (match g x with Some y => y :: omap g l | None => omap g l end).
  by rewrite Hx, IH.
Qed.

(** The alert map lists the active alerts in ledger order. *)
Lemma alert_map_lists_active k (l : list pydict) :
  omap (fun p => l !! (p - k)) (active_from k l) = active_alerts l.
Proof.
  revert k. induction l as [|a l IH]; intros k; [done|].
  cbn [active_from]. unfold active_alerts in *. cbn [List.filter].
  assert (Hshift : omap (fun p => (a :: l) !! (p - k)) (active_from (S k) l)
                   = omap (fun p => l !! (p - S k)) (active_from (S k) l)).
  { apply list_omap_ext_Forall. apply Forall_forall. intros p Hp.
    apply elem_of_active_from in Hp as (_ & Hlt & _).
    by replace (p - k) with (S (p - S k)) by lia. }
  destruct (is_active a).
  - simpl. rewrite Nat.sub_diag. simpl. f_equal.
    etrans; [exact Hshift|apply IH].
  - etrans; [exact Hshift|apply IH].
Qed.

End ResolveMore.

(** X10. A resolve changes nothing at all (no request, no clock reading, no
    change of the ledger, no write of its file) when no alert is active, even
    in the automatic mode, and, when asked, if the operator goes back, types
    something that is no list of numbers, types only numbers outside the
    table, or declines the confirmation.  It returns when the listing of the
    alerts returns, and raises what the listing raises. *)
Theorem resolve_without_selection_does_nothing `{PyBuiltins} `{World}
    (auto_all : bool) (script : resolve_script) (st : simulator)
    (Hnothing :
       active_from 0 (sent_alerts st) = []
       ∨ (auto_all = false
          ∧ (selection script = SelBack
             ∨ selection script = SelInvalid
             ∨ confirmed script = false
             ∨ ∃ indices,
                 selection script = SelNumbers indices
                 ∧ Forall (fun i =>
                             (i < 1)%Z
                             ∨ (Z.of_nat (length (active_from 0 (sent_alerts st))) < i)%Z)
                     indices))) :
  exec (resolve_alerts auto_all script) st = st
  ∧ fst (resolve_alerts auto_all script st)
    = match fst (show_sent_alerts st) with
      | Ok _ => Ok tt
      | Raise e => Raise e
      end.
Proof.
  enough (Hrun : resolve_alerts auto_all script st
                 = (match fst (show_sent_alerts st) with
                    | Ok _ => Ok tt
                    | Raise e => Raise e
                    end, st)).
  { unfold exec. by rewrite Hrun. }
  destruct Hnothing as [Hnone|[-> Hcases]].
  { rewrite (resolve_alerts_no_active _ _ _ Hnone).
    by rewrite (show_sent_alerts_no_active _ Hnone). }
  unfold resolve_alerts, mbind, M_bind. rewrite show_sent_alerts_run.
  destruct (fst (show_sent_alerts st)) as [m|e]; [|done].
  destruct (active_from 0 (sent_alerts st)) as [|p alert_map] eqn:Hmap; [done|].
  unfold select_to_resolve.
  destruct Hcases as [-> |[-> |[Hno|(indices & -> & Hout)]]]; try done.
  - destruct (selection script) as [| |indices|]; try done.
    + by rewrite Hno.
    + destruct (omap _ indices); [done|]. by rewrite Hno.
  - by rewrite (omap_out_of_range _ _ Hout).
Qed.

(** The operator types numbers that are not in the table. *)
Lemma resolve_without_selection_does_nothing_witness :
  Forall (fun i =>
            (i < 1)%Z
            ∨ (Z.of_nat (length (active_from 0 (sent_alerts two_active))) < i)%Z)
    [0; 3; -1]%Z
  ∧ @resolve_alerts sample_builtins sample_world false
      {| selection := SelNumbers [0; 3; -1]%Z; confirmed := true |} two_active
    = (Ok tt, two_active).
Proof.
  assert (Hout : Forall (fun i =>
                           (i < 1)%Z
                           ∨ (Z.of_nat (length (active_from 0
                                                  (sent_alerts two_active))) < i)%Z)
                   [0; 3; -1]%Z).
  { repeat constructor; vm_compute; (by left) || (by right). }
  split; [exact Hout|].
  destruct (@resolve_without_selection_does_nothing sample_builtins sample_world
              false {| selection := SelNumbers [0; 3; -1]%Z; confirmed := true |}
              two_active) as [Hstate Hresult].
  { right. split; [reflexivity|]. right. right. right.
    exists [0; 3; -1]%Z. split; [reflexivity|exact Hout]. }
  unfold exec in Hstate.
  destruct (@resolve_alerts sample_builtins sample_world false
              {| selection := SelNumbers [0; 3; -1]%Z; confirmed := true |}
              two_active) as [res st'].
  cbn [fst snd] in *. subst st'. f_equal. rewrite Hresult.
  vm_compute. reflexivity.
Defined.

(** X11. When an automatic resolve returns and every one of its deliveries
    was accepted, no alert is active afterwards, and any further resolve,
    automatic or not, does nothing. *)
Theorem resolve_all_clears_the_active_list `{PyBuiltins} `{World}
    (st : simulator) (script : resolve_script)
    (Hreturns : fst (resolve_alerts true script st) = Ok tt)
    (Haccepted : ∀ k, k < length (active_from 0 (sent_alerts st)) →
                      delivered (length (requests st) + k) = true) :
  active_from 0 (sent_alerts (exec (resolve_alerts true script) st)) = []
  ∧ ∀ auto_all script',
      resolve_alerts auto_all script' (exec (resolve_alerts true script) st)
      = (Ok tt, exec (resolve_alerts true script) st).
Proof.
  assert (Hclear : active_from 0 (sent_alerts (exec (resolve_alerts true script) st))
                   = []).
  { destruct (active_from 0 (sent_alerts st)) as [|p0 rest] eqn:Hmap.
    { unfold exec. by rewrite (resolve_alerts_no_active _ _ _ Hmap). }
    rewrite <- Hmap in *. set (to_resolve := active_from 0 (sent_alerts st)) in *.
    assert (Hvalid : ∀ p, p ∈ to_resolve → is_Some (sent_alerts st !! p)).
    { intros p (r & Hr & _)%elem_of_active. by eexists. }
    destruct (resolve_alerts_returns true script st to_resolve)
      as [[count Hloop] ->]; [done|by rewrite Hmap|done|done|].
    destruct (resolve_loop_batch to_resolve 0 st count (NoDup_active_from 0 _)
                Hvalid Hloop) as [_ Heach].
    unfold exec. proj_simpl. apply active_from_nil. intros p r' Hr'.
    destruct (decide (p ∈ to_resolve)) as [Hin|Hout].
    - apply list_elem_of_lookup_1 in Hin as [k Hk].
      destruct (Heach k p Hk) as (r & t & Hr & _ & [(_ & i & _ & _ & Hres)|[Hd _]]).
      + rewrite Hres in Hr'. injection Hr' as <-. apply is_active_mark_resolved.
      + rewrite Haccepted in Hd; [done|]. by eapply lookup_lt_Some.
    - rewrite resolve_loop_other in Hr' by done.
      destruct (is_active r') eqn:Hact; [|done].
      destruct Hout. apply elem_of_active. by exists r'. }
  split; [exact Hclear|]. intros auto_all script'.
  by apply resolve_alerts_no_active.
Qed.

Lemma resolve_all_clears_the_active_list_witness :
  fst (@resolve_alerts sample_builtins accepting_world true resolve_all_script
         two_active) = Ok tt
  ∧ (∀ k, k < length (active_from 0 (sent_alerts two_active)) →
          @delivered accepting_world (length (requests two_active) + k) = true)
  ∧ active_from 0
      (sent_alerts (exec (@resolve_alerts sample_builtins accepting_world true
                            resolve_all_script) two_active)) = [].
Proof.
  assert (Haccepted : ∀ k, k < length (active_from 0 (sent_alerts two_active)) →
            @delivered accepting_world (length (requests two_active) + k) = true)
    by (intros k _; reflexivity).
  assert (Hreturns : fst (@resolve_alerts sample_builtins accepting_world true
                            resolve_all_script two_active) = Ok tt)
    by (vm_compute; reflexivity).
  split; [exact Hreturns|]. split; [exact Haccepted|].
  exact (proj1 (@resolve_all_clears_the_active_list sample_builtins accepting_world
                  two_active resolve_all_script Hreturns Haccepted)).
Defined.

(** X12. When the resolve loop over distinct active records returns, the
    count of resolved alerts it reports is the number of deliveries that were
    accepted, and the list of active alerts is shorter by exactly that
    number. *)
Theorem resolved_count_is_accepted_deliveries `{PyBuiltins} `{World}
    (to_resolve : list nat) (st : simulator) (count : nat)
    (Hdistinct : NoDup to_resolve)
    (Hactive : ∀ p, p ∈ to_resolve → p ∈ active_from 0 (sent_alerts st))
    (Hreturns : fst (resolve_loop to_resolve 0 st) = Ok count) :
  count = count_delivered (length (requests st)) (length to_resolve)
  ∧ count ≤ length to_resolve
  ∧ length (active_from 0 (sent_alerts (exec (resolve_loop to_resolve 0) st)))
    + count
    = length (active_from 0 (sent_alerts st)).
Proof.
  assert (Hactive' : ∀ p, p ∈ to_resolve →
            ∃ r, sent_alerts st !! p = Some r ∧ is_active r = true).
  { intros p Hp. apply elem_of_active. by apply Hactive. }
  destruct (resolve_loop_count to_resolve 0 st count Hdistinct Hactive' Hreturns)
    as [Hcount Hlen].
  simpl in Hcount. subst count. split_and!; [done| |exact Hlen].
  unfold count_delivered.
  etrans; [apply List.filter_length_le|]. by rewrite length_seq.
Qed.

Lemma resolved_count_is_accepted_deliveries_witness :
  NoDup [0; 1]
  ∧ (∀ p, p ∈ [0; 1] → p ∈ active_from 0 (sent_alerts two_active))
  ∧ fst (@resolve_loop sample_builtins sample_world [0; 1] 0 two_active) = Ok 1
  ∧ 1 = @count_delivered sample_world (length (requests two_active)) 2.
Proof.
  assert (Hdistinct : NoDup [0; 1]).
  { apply NoDup_cons. split; [by intros ?%list_elem_of_singleton|].
    apply NoDup_singleton. }
  assert (Hactive : ∀ p, p ∈ [0; 1] → p ∈ active_from 0 (sent_alerts two_active)).
  { intros p Hp. replace (active_from 0 (sent_alerts two_active)) with [0; 1]
      by (vm_compute; reflexivity). exact Hp. }
  assert (Hreturns : fst (@resolve_loop sample_builtins sample_world [0; 1] 0
                            two_active) = Ok 1)
    by (vm_compute; reflexivity).
  split; [exact Hdistinct|]. split; [exact Hactive|]. split; [exact Hreturns|].
  exact (proj1 (@resolved_count_is_accepted_deliveries sample_builtins
                  sample_world [0; 1] two_active 1 Hdistinct Hactive Hreturns)).
Defined.

(** X13. Listing the sent alerts changes nothing.  It returns exactly when
    the ledger is empty or the rows of the active alerts can be built and
    the table printed, and then the alert map it returns numbers exactly the
    active alerts, in ledger order and each once.  The active and the
    resolved alerts it separates are together the whole ledger: their lengths
    add up to the total the menu shows. *)
Theorem listing_partitions_the_ledger `{PyBuiltins} (st : simulator) :
  snd (show_sent_alerts st) = st
  ∧ ((∃ alert_map, fst (show_sent_alerts st) = Ok alert_map)
     ↔ sent_alerts st = []
       ∨ ∃ rows, active_rows (active_alerts (sent_alerts st)) = Ok rows
                 ∧ table_prints (active_alerts (sent_alerts st)) rows = true)
  ∧ (∀ alert_map, fst (show_sent_alerts st) = Ok alert_map →
       alert_map = active_from 0 (sent_alerts st))
  ∧ NoDup (active_from 0 (sent_alerts st))
  ∧ omap (fun p => sent_alerts st !! p) (active_from 0 (sent_alerts st))
    = active_alerts (sent_alerts st)
  ∧ length (active_alerts (sent_alerts st))
    + length (resolved_alerts (sent_alerts st))
    = length (sent_alerts st)
  ∧ active_alerts (sent_alerts st) ++ resolved_alerts (sent_alerts st)
    ≡ₚ sent_alerts st.
Proof.
  assert (Hperm : ∀ l : list pydict,
            (active_alerts l ++ resolved_alerts l)%list ≡ₚ l).
  { intros l. unfold active_alerts, resolved_alerts, is_active.
    induction l as [|a l IH]; [done|]. cbn [List.filter].
    destruct (eq_str (dict_get a "status" VNone) "ok"); cbn [negb].
    - rewrite <- Permutation_middle. by constructor.
    - simpl. by constructor. }
  split_and!; [| | | | | |apply Hperm].
  - by rewrite show_sent_alerts_run.
  - unfold show_sent_alerts, active_alerts, lift, raise, mbind, M_bind, mret,
      M_ret, get_self.
    destruct (sent_alerts st) as [|a alerts]; cbn [fst].
    { split; [by left|]. by eexists. }
    destruct (active_rows _) as [rows|e]; cbn [fst].
    + destruct (table_prints _ rows) eqn:Hprints; cbn [fst].
      * split; [|by eexists]. intros _. right. by exists rows.
      * split; [by intros [? ?]|]. intros [?|(rows' & [= <-] & ?)]; [done|].
        congruence.
    + split; [by intros [? ?]|]. by intros [?|(rows' & ? & _)].
  - intros alert_map Hok. rewrite show_sent_alerts_run in Hok. cbn [fst] in Hok.
    destruct (fst (show_sent_alerts st)); [|done]. by injection Hok as <-.
  - apply NoDup_active_from.
  - rewrite <- (alert_map_lists_active 0).
    apply list_omap_ext_Forall, Forall_forall. intros p _.
    by rewrite Nat.sub_0_r.
  - rewrite <- length_app. by rewrite (Hperm (sent_alerts st)).
Qed.

(** ** More on the generate and send flow *)

Section FlowMore.
Context `{PyBuiltins} `{World}.

Lemma filter_loop_raise_only (now cutoff : Z) (events : list pyval)
    (acc : filter_acc) (x : pyexn) :
  filter_loop now cutoff events acc = Raise x → x = AttributeError.
Proof.
  revert acc. induction events as [|e events IH]; intros acc; [done|].
  cbn [filter_loop].
  destruct (examine now cutoff e) as [[]|x'] eqn:Hexamine; try apply IH.
  intros [= <-]. by eapply examine_raise_only.
Qed.

(** What [fetch_events] does: one request, and then either the feed failed
    and nothing else happened, or the clock was read and the filter ran. *)
Lemma fetch_events_run st :
  requests (snd (fetch_events st)) = (requests st ++ [GetEvents])%list
  ∧ cfg (snd (fetch_events st)) = cfg st
  ∧ ((feed_reply (length (requests st)) = None
      ∧ fetch_events st = (Ok [], add_request GetEvents st))
     ∨ (∃ evs, feed_reply (length (requests st)) = Some evs
               ∧ ((filter_active_events (clock_us (clock_reads st))
                     MAX_EVENT_AGE_HOURS evs = Raise AttributeError
                   ∧ fetch_events st
                     = (Raise AttributeError, tick (add_request GetEvents st)))
                  ∨ (∃ acc,
                       filter_active_events (clock_us (clock_reads st))
                         MAX_EVENT_AGE_HOURS evs = Ok acc
                       ∧ fetch_events st
                         = (Ok (active_events acc),
                            set_events (active_events acc)
                              (tick (add_request GetEvents st))))))).
Proof.
  unfold fetch_events, issue, read_clock, modify, raise, mbind, M_bind.
  destruct (feed_reply (length (requests st))) as [evs|] eqn:Hfeed.
  2:{ split_and!; [done..|]. by left. }
  cbn [clock_reads add_request].
  destruct (filter_active_events (clock_us (clock_reads st))
              MAX_EVENT_AGE_HOURS evs) as [acc|x] eqn:Hfilter.
  - split_and!; [done..|]. right. exists evs. split; [done|]. right. by exists acc.
  - assert (x = AttributeError) as ->.
    { unfold filter_active_events in Hfilter. by eapply filter_loop_raise_only. }
    split_and!; [done..|]. right. exists evs. split; [done|]. by left.
Qed.

Lemma send_and_track_run payload event st :
  requests (snd (send_and_track payload event st))
  = (requests st ++ [PostAlert payload])%list
  ∧ events (snd (send_and_track payload event st)) = events st
  ∧ cfg (snd (send_and_track payload event st)) = cfg st.
Proof.
  unfold send_and_track, mbind, M_bind. rewrite send_to_bigpanda_run.
  unfold send_result. destruct (delivered (length (requests st))).
  - by rewrite track_sent_alert_run.
  - by destruct (markup_ok (post_text (length (requests st)))).
Qed.

(** A run of the flow, step by step. *)
Lemma flow_walk st script :
  events (exec (generate_and_send_flow script) st) = events (snd (fetch_events st))
  ∧ cfg (exec (generate_and_send_flow script) st) = cfg st
  ∧ ∃ more,
      requests (exec (generate_and_send_flow script) st)
      = (requests st ++ GetEvents :: more)%list
      ∧ flow_tail script (length (requests st)) more
      ∧ (fst (fetch_events st) = Ok [] ∨ fst (fetch_events st) = Raise AttributeError →
         more = []).
Proof.
  destruct (fetch_events_run st) as (Hreq & Hcfg & _).
  unfold exec, generate_and_send_flow, mbind, M_bind, mret, M_ret.
  destruct (fetch_events st) as [[evs|x] st1] eqn:Hfetch; cbn [fst snd] in *.
  2:{ split_and!; [done|done|].
      exists []. split; [done|]. split; [by left|done]. }
  destruct evs as [|e0 evs].
  { split_and!; [done|done|].
    exists []. split; [done|]. split; [by left|done]. }
  assert (Hlen1 : length (requests st1) = S (length (requests st))).
  { rewrite Hreq, length_app. simpl. lia. }
  assert (Hno : ∀ P : Prop, (Ok (e0 :: evs) = Ok [] ∨ Ok (e0 :: evs) = Raise AttributeError → P)).
  { by intros P [?|?]. }
  destruct (picked script) as [event|] eqn:Hpicked.
  2:{ split_and!; [done|done|].
      exists []. split; [done|]. split; [by left|apply Hno]. }
  destruct (negb (truthy (VDict event))).
  { split_and!; [done|done|].
    exists []. split; [done|]. split; [by left|apply Hno]. }
  rewrite generate_internal_alert_run, Hlen1.
  assert (Hone : flow_tail script (length (requests st)) [ChatCompletion event]).
  { right. exists event. split; [done|]. by left. }
  destruct (llm_reply (S (length (requests st)))) as [g|] eqn:Hllm.
  2:{ split_and!; [done|done|].
      exists [ChatCompletion event]. proj_simpl. rewrite Hreq, <- app_assoc.
      split; [done|]. split; [exact Hone|apply Hno]. }
  destruct (negb (truthy (VDict g))).
  { split_and!; [done|done|].
    exists [ChatCompletion event]. proj_simpl. rewrite Hreq, <- app_assoc.
    split; [done|]. split; [exact Hone|apply Hno]. }
  rewrite build_now_run.
  destruct (send_first script).
  { match goal with
    | |- context [send_and_track ?p ?e ?s] =>
        destruct (send_and_track_run p e s) as (Hreq' & Hev & Hcfg');
        destruct (send_and_track p e s) as [res st2]; cbn [fst snd] in *
    end.
    proj_simpl. split_and!; [done|congruence|].
    eexists. rewrite Hreq', Hreq, <- !app_assoc. split; [reflexivity|].
    split; [|apply Hno]. right. exists event. split; [done|]. right.
    exists g. split; [done|]. left. by eexists. }
  destruct (regenerate script).
  2:{ split_and!; [done|done|].
      exists [ChatCompletion event]. proj_simpl. rewrite Hreq, <- app_assoc.
      split; [done|]. split; [exact Hone|apply Hno]. }
  rewrite generate_internal_alert_run.
  assert (Htwo : flow_tail script (length (requests st))
                   [ChatCompletion event; ChatCompletion event]).
  { right. exists event. split; [done|]. right. exists g. split; [done|].
    right. by left. }
  assert (Hlen2 : length (requests (tick (add_request (ChatCompletion event) st1)))
                  = S (S (length (requests st)))).
  { proj_simpl. rewrite length_app, Hlen1. simpl. lia. }
  rewrite Hlen2.
  destruct (llm_reply (S (S (length (requests st))))) as [g'|] eqn:Hllm'.
  2:{ split_and!; [done|done|].
      exists [ChatCompletion event; ChatCompletion event]. proj_simpl.
      rewrite Hreq, <- !app_assoc.
      split; [done|]. split; [exact Htwo|apply Hno]. }
  destruct (negb (truthy (VDict g'))).
  { split_and!; [done|done|].
    exists [ChatCompletion event; ChatCompletion event]. proj_simpl.
    rewrite Hreq, <- !app_assoc.
    split; [done|]. split; [exact Htwo|apply Hno]. }
  rewrite build_now_run.
  destruct (send_second script).
  { match goal with
    | |- context [send_and_track ?p ?e ?s] =>
        destruct (send_and_track_run p e s) as (Hreq' & Hev & Hcfg');
        destruct (send_and_track p e s) as [res st2]; cbn [fst snd] in *
    end.
    proj_simpl. split_and!; [done|congruence|].
    eexists. rewrite Hreq', Hreq, <- !app_assoc. split; [reflexivity|].
    split; [|apply Hno]. right. exists event. split; [done|]. right.
    exists g. split; [done|]. right. right. exists g'. eexists. by split. }
  split_and!; [done|done|].
  exists [ChatCompletion event; ChatCompletion event]. proj_simpl.
  rewrite Hreq, <- !app_assoc.
  split; [done|]. split; [exact Htwo|apply Hno].
Qed.

End FlowMore.

Section Whole.
Context `{PyBuiltins} `{World}.

(** The events held by the simulator over one operation: as before, or the
    events kept from the feed's answer to the first request of the
    operation. *)
Lemma perform_events op st :
  events (exec (perform op) st) = events st
  ∨ ∃ evs,
      requests (exec (perform op) st) !! length (requests st) = Some GetEvents
      ∧ feed_reply (length (requests st)) = Some evs
      ∧ Forall (fun e => event_shape_ok e = true) evs
      ∧ events (exec (perform op) st)
        = List.filter (keeps (clock_us (clock_reads st)) MAX_EVENT_AGE_HOURS) evs.
Proof.
  destruct op as [script|payload event|auto_all script| |confirm]; cbn [perform].
  - destruct (flow_walk st script) as (Hev & _ & more & Hreq & _).
    destruct (fetch_events_run st)
      as (_ & _ & [[_ Hrun]|(evs & Hfeed & [[_ Hrun]|(acc & Hfilter & Hrun)])]);
      rewrite Hrun in Hev; cbn [snd] in Hev; [by left|by left|].
    right. exists evs.
    destruct (filter_returns_shape _ _ _ _ Hfilter) as [Hshape Hkept].
    split_and!; [|done|done|].
    + rewrite Hreq. by apply list_lookup_middle.
    + by rewrite Hev, <- Hkept.
  - left. unfold exec. by rewrite track_sent_alert_run.
  - left. destruct (resolve_alerts_cases auto_all script st)
      as [-> |[to_resolve [-> | ->]]]; [done| |];
      destruct (resolve_loop_frame to_resolve 0 st) as (_ & Hev & _);
      unfold exec; by proj_simpl.
  - left. unfold exec, mbind, M_bind. rewrite show_sent_alerts_run.
    by destruct (fst (show_sent_alerts st)).
  - left. unfold exec, setup_oim_integration. by destruct confirm.
Qed.

End Whole.

(** X6. The events the simulator holds come from a fetch.  At startup and
    after any sequence of operations, the list of events held by the
    simulator is empty or is what the filter keeps, at some reading of the
    clock, of an answer the feed gave to a request for events made since
    startup; every event in it is an object whose [is_active] is true. *)
Theorem held_events_come_from_a_fetch `{PyBuiltins} `{World}
    (c : config) (f : ledger_file) (ops : list operation) :
  (events (after ops (snd (DemoSimulator c f))) = []
   ∨ ∃ n k evs,
       requests (after ops (snd (DemoSimulator c f))) !! n = Some GetEvents
       ∧ feed_reply n = Some evs
       ∧ Forall (fun e => event_shape_ok e = true) evs
       ∧ events (after ops (snd (DemoSimulator c f)))
         = List.filter (keeps (clock_us k) MAX_EVENT_AGE_HOURS) evs)
  ∧ Forall (fun e => event_active e = true)
      (events (after ops (snd (DemoSimulator c f)))).
Proof.
  assert (Hfrom :
    events (after ops (snd (DemoSimulator c f))) = []
    ∨ ∃ n k evs,
        requests (after ops (snd (DemoSimulator c f))) !! n = Some GetEvents
        ∧ feed_reply n = Some evs
        ∧ Forall (fun e => event_shape_ok e = true) evs
        ∧ events (after ops (snd (DemoSimulator c f)))
          = List.filter (keeps (clock_us k) MAX_EVENT_AGE_HOURS) evs).
  { induction ops as [|op ops IH] using rev_ind.
    { left. by destruct f. }
    unfold after in *. rewrite fold_left_app. cbn [fold_left].
    set (st := fold_left (fun s op => exec (perform op) s) ops
                 (snd (DemoSimulator c f))) in *.
    destruct (perform_events op st) as [Hsame|(evs & Hreq & Hfeed & Hshape & Hev)].
    - rewrite Hsame. destruct IH as [Hnil|(n & k & evs & Hreq & Hrest)];
        [by left|].
      right. exists n, k, evs. split; [|done].
      destruct (perform_step op st) as [Hpre _].
      by eapply prefix_lookup_Some.
    - right. by exists (length (requests st)), (clock_reads st), evs. }
  split; [exact Hfrom|].
  destruct Hfrom as [-> |(n & k & evs & _ & _ & Hshape & ->)]; [constructor|].
  apply List.Forall_forall. intros e [Hin Hkeeps]%filter_In.
  eapply keeps_shape_ok; [exact Hkeeps|].
  rewrite List.Forall_forall in Hshape. by apply Hshape.
Qed.

(** X16. The requests of one generate-and-send flow come in a fixed order.
    The flow first asks the feed for events, once; then it calls the model at
    most twice, each time for the event the operator picked, the second time
    only after the model answered the first; then it posts at most one alert,
    last, and the alert is the open payload, with status "critical", built
    from the model's latest answer.  The model is called only when the feed
    answered with at least one event the filter keeps. *)
Theorem flow_requests_in_order `{PyBuiltins} `{World}
    (script : flow_script) (st : simulator) :
  ∃ more,
    requests (exec (generate_and_send_flow script) st)
    = (requests st ++ GetEvents :: more)%list
    ∧ flow_tail script (length (requests st)) more
    ∧ (more ≠ [] →
       ∃ evs e, feed_reply (length (requests st)) = Some evs
                ∧ In e evs
                ∧ keeps (clock_us (clock_reads st)) MAX_EVENT_AGE_HOURS e = true).
Proof.
  destruct (flow_walk st script) as (_ & _ & more & Hreq & Htail & Hnone).
  exists more. split_and!; [done|done|].
  intros Hmore.
  destruct (fetch_events_run st)
    as (_ & _ & [[_ Hrun]|(evs & Hfeed & [[_ Hrun]|(acc & Hfilter & Hrun)])]);
    rewrite Hrun in Hnone; cbn [fst] in Hnone.
  - destruct Hmore. apply Hnone. by left.
  - destruct Hmore. apply Hnone. by right.
  - destruct (filter_returns_shape _ _ _ _ Hfilter) as [_ Hkept].
    destruct (active_events acc) as [|e kept] eqn:Hacc.
    { destruct Hmore. apply Hnone. by left. }
    exists evs, e. split; [done|].
    apply filter_In. rewrite <- Hkept. by left.
Qed.



(** X18. The selection of event types is never empty.  For a table of at
    least one type and whatever the operator types, the types selected are
    not empty and every one of them is a type of the table. *)
Theorem type_selection_is_never_empty (type_map : list pyval)
    (input : selection_input) (Hsome : type_map ≠ []) :
  select_alert_types type_map input ≠ []
  ∧ Forall (fun t => In t type_map) (select_alert_types type_map input).
Proof.
  assert (Hall : Forall (fun t => In t type_map) type_map).
  { apply List.Forall_forall. by intros t Ht. }
  destruct input as [| |indices|]; cbn [select_alert_types]; try done.
  assert (Hvalid : Forall (fun t => In t type_map)
                     (omap (numbered_get type_map) indices)).
  { induction indices as [|i indices IH]; [constructor|].
    cbn [omap list_omap].
    destruct (numbered_get type_map i) as [t|] eqn:Hi; [|exact IH].
    constructor; [|exact IH].
    unfold numbered_get in Hi. destruct (1 <=? i)%Z; [|done].
    clear -Hi. revert Hi. generalize (Z.to_nat (i - 1)).
    induction type_map as [|t' types IHt]; intros [|k] Hk; try done.
    - injection Hk as ->. by left.
    - right. by apply (IHt k). }
  destruct (omap (numbered_get type_map) indices) as [|t selected]; by split.
Qed.

Lemma type_selection_is_never_empty_witness :
  [VStr "outage"; VStr "weather"] ≠ []
  ∧ select_alert_types [VStr "outage"; VStr "weather"] (SelNumbers [0; 2; 7]%Z)
    ≠ [].
Proof.
  assert (Hsome : [VStr "outage"; VStr "weather"] ≠ []) by done.
  split; [exact Hsome|].
  exact (proj1 (type_selection_is_never_empty [VStr "outage"; VStr "weather"]
                  (SelNumbers [0; 2; 7]%Z) Hsome)).
Defined.


(** ** What the tables show *)





(** X20. A generated alert whose host is a number is sent and tracked, and
    can then be neither listed nor resolved.  When the model gives a host
    that is a number other than zero (or [True]), the payload builder passes
    it through and the ledger record tracked from the payload carries it,
    with status "critical"; building the row of that record in the table of
    active alerts raises, and so does the line of the resolve loop, since
    [truncate] asks for the length of the host. *)
Theorem numeric_host_cannot_be_shown `{PyBuiltins} (g : pydict)
    (host status : pyval) (t utcnow : Z) (event : option pydict)
    (Hhost : g !! "host" = Some host)
    (Hnumber : is_number host = true)
    (Htrue : truthy host = true) :
  build_bigpanda_payload g status t !! "host" = Some host
  ∧ tracked_record (build_bigpanda_payload g status t) event utcnow !! "host"
    = Some host
  ∧ is_active (tracked_record (build_bigpanda_payload g status t) event utcnow)
    = true
  ∧ active_row (tracked_record (build_bigpanda_payload g status t) event utcnow)
    = None
  ∧ host_short (tracked_record (build_bigpanda_payload g status t) event utcnow)
    = None.
Proof.
  assert (Hpayload : build_bigpanda_payload g status t !! "host" = Some host).
  { transitivity (Some (dict_get g "host" (VStr "unknown-host")));
      [reflexivity|]. unfold dict_get. by rewrite Hhost. }
  assert (Hrecord : tracked_record (build_bigpanda_payload g status t) event
                      utcnow !! "host" = Some host).
  { transitivity (Some (dict_get (build_bigpanda_payload g status t) "host"
                          VNone)); [reflexivity|].
    unfold dict_get. by rewrite Hpayload. }
  assert (Hraises : ∀ max_len, truncate host max_len "..." = None).
  { intros max_len. unfold truncate. rewrite Htrue. by destruct host. }
  split_and!; [done|done|reflexivity| |].
  - unfold active_row, active_row_result, truncate_call, dict_get.
    rewrite Hrecord.
    replace (tracked_record (build_bigpanda_payload g status t) event utcnow
               !! "sent_at")
      with (Some (VStr (isoformat utcnow))) by reflexivity.
    cbn [from_option id is_str]. by rewrite Hraises.
  - unfold host_short, dict_get. rewrite Hrecord. cbn [from_option id].
    apply Hraises.
Qed.

Lemma numeric_host_cannot_be_shown_witness :
  (<["host" := VInt 42]> sample_alert) !! "host" = Some (VInt 42)
  ∧ is_number (VInt 42) = true
  ∧ truthy (VInt 42) = true
  ∧ host_short
      (@tracked_record sample_builtins
         (build_bigpanda_payload (<["host" := VInt 42]> sample_alert)
            (VStr "critical") sample_now)
         (Some sample_event) sample_now)
    = None.
Proof.
  assert (Hhost : (<["host" := VInt 42]> sample_alert) !! "host"
                  = Some (VInt 42)) by reflexivity.
  split_and!; [exact Hhost|reflexivity|reflexivity|].
  exact (proj2 (proj2 (proj2 (proj2
    (@numeric_host_cannot_be_shown sample_builtins
       (<["host" := VInt 42]> sample_alert) (VInt 42) (VStr "critical")
       sample_now sample_now (Some sample_event) Hhost eq_refl eq_refl))))).
Defined.
